(** * Thoth SLO reporter: the SLI evaluation pipeline

    A shallow embedding of the User-API indicator
    ([thoth/slo_reporter/sli_apis/sli_user_api.py]) and of the collection,
    persistence and publishing steps of [app.py], followed by the
    properties of the specification that concern them.

    Modelling conventions.
    - A Python [float] is a [pyfloat]: a finite value carried as an exact
      rational, the two infinities, or NaN.  Comparisons, arithmetic on
      NaN and on the infinities follow IEEE 754 as Python exposes it;
      finite arithmetic is exact (binary rounding error and overflow are
      not modelled).
    - A raised exception is the [Raise] outcome of the [outcome] type; a
      [try ... except Exception] is a match on it.
    - Dictionaries that are only looked up are [gmap]s; dictionaries whose
      iteration order is observable are lists of items. *)

From Stdlib Require Import ZArith QArith Qround Qabs DecimalString.
From stdpp Require Import base option list strings gmap fin_maps.

Local Open Scope string_scope.

(** ** Outcomes of fallible Python code *)

Inductive exn : Type :=
| KeyError (key : string)
| IndexError
| ValueError
| ZeroDivisionError
| TypeError
| Exception (msg : string)
| SourceError (msg : string).

Inductive outcome (A : Type) : Type :=
| Ok (a : A)
| Raise (e : exn).
Arguments Ok {A} a.
Arguments Raise {A} e.

Definition obind {A B} (m : outcome A) (k : A → outcome B) : outcome B :=
  match m with
  | Ok a => k a
  | Raise e => Raise e
  end.

Notation "x ←! m ;; k" := (obind m (λ x, k))
  (at level 100, m at next level, right associativity, only parsing).

Definition is_ok {A} (m : outcome A) : bool :=
  match m with Ok _ => true | Raise _ => false end.

(** [d[k]] on a dictionary: [KeyError] when the key is absent. *)
Definition getitem {V} (d : gmap string V) (k : string) : outcome V :=
  match d !! k with
  | Some v => Ok v
  | None => Raise (KeyError k)
  end.

(** ** Python floats *)

Module PyFloat.

Inductive pyfloat : Type :=
| Fin (q : Q)
| PInf
| NInf
| NaN.

Definition is_nan (x : pyfloat) : bool :=
  match x with NaN => true | _ => false end.

Definition Qltb (a b : Q) : bool := negb (Qle_bool b a).

(** [x > y], [x < y] and [x != y]: every ordered comparison with NaN is
    false, and [!=] with NaN is true. *)
Definition gt (x y : pyfloat) : bool :=
  match x, y with
  | NaN, _ | _, NaN => false
  | Fin a, Fin b => Qltb b a
  | PInf, PInf => false
  | PInf, _ => true
  | _, NInf => match x with NInf => false | _ => true end
  | _, _ => false
  end.

Definition lt (x y : pyfloat) : bool := gt y x.

Definition ne (x y : pyfloat) : bool :=
  match x, y with
  | NaN, _ | _, NaN => true
  | Fin a, Fin b => negb (Qeq_bool a b)
  | PInf, PInf | NInf, NInf => false
  | _, _ => true
  end.

Definition zero : pyfloat := Fin 0.

Definition neg (x : pyfloat) : pyfloat :=
  match x with
  | Fin q => Fin (- q)
  | PInf => NInf
  | NInf => PInf
  | NaN => NaN
  end.

(** [abs(x)]. *)
Definition abs (x : pyfloat) : pyfloat :=
  match x with
  | Fin q => Fin (Qabs q)
  | PInf | NInf => PInf
  | NaN => NaN
  end.

(** [x * y]; an infinity times zero is NaN. *)
Definition scale_inf (inf : pyfloat) (a : Q) : pyfloat :=
  match (a ?= 0)%Q with
  | Eq => NaN
  | Gt => inf
  | Lt => neg inf
  end.

Definition mul (x y : pyfloat) : pyfloat :=
  match x, y with
  | NaN, _ | _, NaN => NaN
  | Fin a, Fin b => Fin (a * b)
  | Fin a, PInf | PInf, Fin a => scale_inf PInf a
  | Fin a, NInf | NInf, Fin a => scale_inf NInf a
  | PInf, PInf | NInf, NInf => PInf
  | PInf, NInf | NInf, PInf => NInf
  end.

(** [x - y]; the difference of equal infinities is NaN. *)
Definition sub (x y : pyfloat) : pyfloat :=
  match x, y with
  | NaN, _ | _, NaN => NaN
  | Fin a, Fin b => Fin (a - b)
  | Fin _, PInf => NInf
  | Fin _, NInf => PInf
  | PInf, PInf | NInf, NInf => NaN
  | PInf, _ => PInf
  | NInf, _ => NInf
  end.

(** [x / y]; Python raises [ZeroDivisionError] on a zero divisor. *)
Definition div (x y : pyfloat) : outcome pyfloat :=
  match y with
  | Fin b =>
      if Qeq_bool b 0 then Raise ZeroDivisionError
      else match x with
           | Fin a => Ok (Fin (a / b))
           | NaN => Ok NaN
           | inf => Ok (scale_inf inf b)
           end
  | NaN => Ok NaN
  | _ => match x with
         | Fin _ => Ok zero
         | _ => Ok NaN
         end
  end.

(** Round to the nearest integer, ties to even. *)
Definition round_half_even (x : Q) : Z :=
  let f := Qfloor x in
  match (x - inject_Z f ?= 1 # 2)%Q with
  | Lt => f
  | Gt => (f + 1)%Z
  | Eq => if Z.even f then f else (f + 1)%Z
  end.

Definition Qround3 (q : Q) : Q := Qred (round_half_even (q * 1000) # 1000).

(** [round(x, 3)]: NaN and the infinities round to themselves. *)
Definition round3 (x : pyfloat) : pyfloat :=
  match x with
  | Fin q => Fin (Qround3 q)
  | _ => x
  end.

(** Three decimal digits of [n], [0 <= n < 1000], zero padded. *)
Definition pad3 (n : Z) : string :=
  let s := NilZero.string_of_uint (N.to_uint (Z.to_N n)) in
  match String.length s with
  | 1%nat => "00" ++ s
  | 2%nat => "0" ++ s
  | _ => s
  end.

(** ["{:.3f}".format(x)]: the sign of a negative value, the integer part,
    a point and three decimals; the value is rounded ties to even. *)
Definition format3f (x : pyfloat) : string :=
  match x with
  | NaN => "nan"
  | PInf => "inf"
  | NInf => "-inf"
  | Fin q =>
      let n := round_half_even (Qabs q * 1000) in
      (if Qltb q 0 then "-" else "")
        ++ NilZero.string_of_uint (N.to_uint (Z.to_N (n / 1000))) ++ "."
        ++ pad3 (n mod 1000)
  end.

End PyFloat.
Import PyFloat.

(** ** Raw samples

    One collected query result: a float, or the string
    ["ErrorMetricRetrieval"] that [collect_metrics] stores when the
    query failed. *)

Inductive sample : Type :=
| Val (f : pyfloat)
| ErrorMetricRetrieval.

(** ** The User-API indicator (sli_user_api.py) *)

Module UserApi.

Record unit_entry : Type := {
  u_name : string;
  u_measurement_unit : string;
  u_quantities : option (list string)
}.

(** The module-level table; a Python dict keeps its keys in the order
    written. *)
Definition _USER_API_MEASUREMENT_UNIT : list (string * unit_entry) :=
  [ ("avg_percentage_successfull_request",
     {| u_name := "Successfull requests User-API (avg)";
        u_measurement_unit := "%";
        u_quantities := Some ["avg_total_request"; "avg_successfull_request"] |});
    ("avg_up_time",
     {| u_name := "Uptime User-API (avg)";
        u_measurement_unit := "%";
        u_quantities := None |}) ].

Definition _SLI_NAME : string := "user_api".

Definition sli_columns : list string := _USER_API_MEASUREMENT_UNIT.*1.

(** The [change] entry: a formatted string, or the bare difference. *)
Inductive change_t : Type :=
| ChangeStr (s : string)
| ChangeNum (f : pyfloat).

(** One entry of [html_inputs]: the inner dictionary with its keys
    ["value"], ["name"], ["measurement_unit"] and, once the report step
    has run, ["change"]. *)
Record html_input : Type := {
  value : pyfloat;
  name : string;
  measurement_unit : string;
  change : option change_t
}.

Definition set_change (h : html_input) (c : change_t) : html_input :=
  {| value := value h; name := name h;
     measurement_unit := measurement_unit h; change := Some c |}.

(** The inner loop of the ratio branch: [results[quantity]] is the
    sample, or [np.nan] for the failure string. *)
Definition fill_results (sli : gmap string sample) (quantities : list string)
  : outcome (gmap string pyfloat) :=
  foldl (λ acc quantity,
           results ←! acc ;;
           s ←! getitem sli quantity ;;
           Ok (<[quantity := match s with
                             | Val f => f
                             | ErrorMetricRetrieval => NaN
                             end]> results))
        (Ok ∅) quantities.

(** [all(single_quantity != np.nan for single_quantity in results.values())] *)
Definition all_not_nan (results : gmap string pyfloat) : bool :=
  forallb (λ single_quantity, ne single_quantity NaN) (map_to_list results).*2.

Definition percentage_value (sli : gmap string sample) (data : unit_entry)
  : outcome pyfloat :=
  quantities ←! match u_quantities data with
                | Some l => Ok l
                | None => Raise (KeyError "quantities")
                end ;;
  results ←! fill_results sli quantities ;;
  if all_not_nan results then
    total ←! getitem results "avg_total_request" ;;
    percentage ←! (if gt total zero then
                     success ←! getitem results "avg_successfull_request" ;;
                     div success total
                   else Ok zero) ;;
    Ok (abs (round3 (mul percentage (Fin 100))))
  else Ok NaN.

Definition plain_value (sli : gmap string sample) (user_api_quantity : string)
  : outcome pyfloat :=
  s ←! getitem sli user_api_quantity ;;
  match s with
  | Val f => Ok (abs (round3 (mul f (Fin 100))))
  | ErrorMetricRetrieval => Ok NaN
  end.

(** One iteration of the loop of [_evaluate_sli]. *)
Definition evaluate_quantity (sli : gmap string sample)
    (user_api_quantity : string) (user_api_quantity_data : unit_entry)
  : outcome html_input :=
  v ←! (if decide (user_api_quantity = "avg_percentage_successfull_request")
        then percentage_value sli user_api_quantity_data
        else plain_value sli user_api_quantity) ;;
  Ok {| value := v;
        name := u_name user_api_quantity_data;
        measurement_unit := u_measurement_unit user_api_quantity_data;
        change := None |}.

Definition _evaluate_sli (sli : gmap string sample)
  : outcome (gmap string html_input) :=
  foldl (λ acc '(user_api_quantity, user_api_quantity_data),
           html_inputs ←! acc ;;
           h ←! evaluate_quantity sli user_api_quantity user_api_quantity_data ;;
           Ok (<[user_api_quantity := h]> html_inputs))
        (Ok ∅) _USER_API_MEASUREMENT_UNIT.

(** *** The report step

    [pd.read_csv(.., names=total_columns)] gives a frame whose column
    labels are [names]; a cell is a number or, in an object column, a
    string.  A row shorter than [names] is padded with NaN. *)

Inductive cell : Type :=
| CNum (f : pyfloat)
| CStr (s : string).

Record DataFrame : Type := {
  df_columns : list string;
  df_rows : list (list cell)
}.

Fixpoint traverse {A B} (f : A → outcome B) (l : list A) : outcome (list B) :=
  match l with
  | [] => Ok []
  | a :: l' => b ←! f a ;; bs ←! traverse f l' ;; Ok (b :: bs)
  end.

(** [df[c]]: the column labelled [c], one cell per row. *)
Definition df_getitem (df : DataFrame) (c : string) : outcome (list cell) :=
  match list_find (λ x, x = c) (df_columns df) with
  | Some (i, _) => Ok ((λ row, default (CNum NaN) (row !! i)) <$> df_rows df)
  | None => Raise (KeyError c)
  end.

(** [x - series]: elementwise; a float minus a string is a [TypeError]. *)
Definition rsub_series (x : pyfloat) (series : list cell)
  : outcome (list pyfloat) :=
  traverse (λ c, match c with
                 | CNum y => Ok (sub x y)
                 | CStr _ => Raise TypeError
                 end) series.

(** [series[0]]: the row labelled 0, [KeyError] on an empty series. *)
Definition series_getitem0 (series : list pyfloat) : outcome pyfloat :=
  match series with
  | x :: _ => Ok x
  | [] => Raise (KeyError "0")
  end.

(** The three branches on [diff]. *)
Definition change_of (diff : pyfloat) : change_t :=
  if gt diff zero then ChangeStr ("+" ++ format3f diff)
  else if lt diff zero then ChangeStr ("-" ++ format3f diff)
  else ChangeNum diff.

Section Report.

(** [SLIBase.default_columns], [configuration.last_week_time], the
    helper [utils.retrieve_thoth_sli_from_ceph], [pandas.read_csv] and
    [HTMLTemplates.thoth_user_api_template] are defined outside this
    class. *)
Variable default_columns : list string.
Variable last_week_time : string.
Variable CephStore : Type.
Variable retrieve_thoth_sli_from_ceph : CephStore → string → outcome string.
Variable read_csv : string → list string → outcome (list (list cell)).
Variable thoth_user_api_template : gmap string html_input → string.

Definition total_columns : list string := default_columns ++ sli_columns.

Definition sli_path : string :=
  _SLI_NAME ++ "/" ++ _SLI_NAME ++ "-" ++ last_week_time ++ ".csv".

(** The body of the loop over [sli_columns]. *)
Definition report_column (last_week_data : DataFrame)
    (html_inputs : gmap string html_input) (c : string)
  : outcome (gmap string html_input) :=
  h ←! getitem html_inputs c ;;
  column ←! df_getitem last_week_data c ;;
  diffs ←! rsub_series (value h) column ;;
  diff ←! series_getitem0 diffs ;;
  Ok (<[c := set_change h (change_of diff)]> html_inputs).

(** [html_inputs] as it is handed to the template. *)
Definition _report_sli_inputs (sli : gmap string sample) (ceph_sli : CephStore)
  : outcome (gmap string html_input) :=
  html_inputs ←! _evaluate_sli sli ;;
  retrieved_data ←! retrieve_thoth_sli_from_ceph ceph_sli sli_path ;;
  rows ←! read_csv retrieved_data total_columns ;;
  let last_week_data := {| df_columns := total_columns; df_rows := rows |} in
  foldl (λ acc c, hi ←! acc ;; report_column last_week_data hi c)
        (Ok html_inputs) sli_columns.

Definition _report_sli (sli : gmap string sample) (ceph_sli : CephStore)
  : outcome string :=
  html_inputs ←! _report_sli_inputs sli ceph_sli ;;
  Ok (thoth_user_api_template html_inputs).

(** The rows of the prior snapshot as the report step obtains them. *)
Definition prior_rows (ceph_sli : CephStore) : outcome (list (list cell)) :=
  retrieved_data ←! retrieve_thoth_sli_from_ceph ceph_sli sli_path ;;
  read_csv retrieved_data total_columns.

End Report.

End UserApi.
Import UserApi.

(** ** Collection, persistence and publishing (app.py) *)

Module App.

(** One value of [sli_methods["query"]]: a dictionary with the keys
    ["query"], ["requires_range"] and ["type"], or a bare query string. *)
Inductive query_inputs : Type :=
| QueryDict (query : string) (requires_range : bool) (type : string)
| QueryStr (query : string).

(** What the Prometheus client returns: for a range query a list of
    series, each with its ["values"], a list of [[timestamp, text]]
    pairs; for an instant query a list of samples, each with one
    ["value"] pair. *)
Record range_series : Type := { rs_values : list (Z * string) }.
Record instant_sample : Type := { is_value : Z * string }.

Definition list_getitem0 {A} (l : list A) : outcome A :=
  match l with
  | x :: _ => Ok x
  | [] => Raise IndexError
  end.

Section Collect.

(** The environment flag, the two calls of the Prometheus client (with
    the period and step of the configuration), the builtin [float] on
    a response text, and [utils.manipulate_retrieved_metrics_vector]. *)
Variable _DRY_RUN : bool.
Variable custom_query_range : string → outcome (list range_series).
Variable custom_query : string → outcome (list instant_sample).
Variable py_float : string → outcome pyfloat.
Variable manipulate_retrieved_metrics_vector :
  list pyfloat → string → outcome pyfloat.

(** [[float(v[1]) for v in values if float(v[1]) > 0]] *)
Fixpoint metrics_vector_of (values : list (Z * string))
  : outcome (list pyfloat) :=
  match values with
  | [] => Ok []
  | v :: rest =>
      x ←! py_float v.2 ;;
      if gt x zero then
        y ←! py_float v.2 ;;
        ys ←! metrics_vector_of rest ;;
        Ok (y :: ys)
      else metrics_vector_of rest
  end.

(** The body of the [try] block. *)
Definition query_result (requires_range : bool) (query action_type : string)
  : outcome pyfloat :=
  if negb _DRY_RUN then
    if requires_range then
      metric_data ←! custom_query_range query ;;
      series ←! list_getitem0 metric_data ;;
      metrics_vector ←! metrics_vector_of (rs_values series) ;;
      manipulate_retrieved_metrics_vector metrics_vector action_type
    else
      metric_data ←! custom_query query ;;
      first ←! list_getitem0 metric_data ;;
      py_float (is_value first).2
  else Ok (Fin 0).

(** One iteration of the inner loop: the [try] with its
    [except Exception]. *)
Definition collect_query (inputs : query_inputs) : sample :=
  let '(query, requires_range, action_type) :=
    match inputs with
    | QueryDict q r t => (q, r, t)
    | QueryStr q => (q, false, "")
    end in
  match query_result requires_range query action_type with
  | Ok result => Val result
  | Raise _ => ErrorMetricRetrieval
  end.

Definition collect_queries (queries : list (string * query_inputs))
  : gmap string sample :=
  foldl (λ info '(query_name, inputs), <[query_name := collect_query inputs]> info)
        ∅ queries.

(** [report_sli_context] is given by its items, each indicator with
    the items of its ["query"] dictionary. *)
Definition collect_metrics
    (report_sli_context : list (string * list (string * query_inputs)))
  : gmap string (gmap string sample) :=
  foldl (λ collected_info '(sli_name, queries),
           <[sli_name := collect_queries queries]> collected_info)
        ∅ report_sli_context.

(** The metric source raises on the call made for these inputs. *)
Definition source_raises (inputs : query_inputs) : bool :=
  match inputs with
  | QueryDict q true _ => negb (is_ok (custom_query_range q))
  | QueryDict q false _ | QueryStr q => negb (is_ok (custom_query q))
  end.

End Collect.

(** *** Persistence *)

(** One call of [utils.store_thoth_sli_on_ceph]. *)
Record store_call : Type := {
  sc_is_public : bool;
  sc_metric_class : string;
  sc_metrics_df : DataFrame;
  sc_ceph_path : string
}.

Section Store.

(** [configuration.end_time] as its date text and its epoch, the
    ["df_method"] of every indicator (its result flattened by
    [json_normalize]: the row as ordered column and cell pairs) and
    [sli_report.report_sli_context_columns]. *)
Variable end_time_date : string.
Variable end_time_epoch : Z.
Variable df_methods :
  gmap string (gmap string sample → string → Z → outcome (list (string * cell))).
Variable report_sli_context_columns : gmap string (list string).

(** The body of the loop up to the two stores: the calls it makes, or
    the exception it raises. *)
Definition store_metric_class (metric_class : string)
    (metrics : gmap string sample) : outcome (list store_call) :=
  evaluation_method ←! getitem df_methods metric_class ;;
  inputs_for_df_sli ←! evaluation_method metrics end_time_date end_time_epoch ;;
  let metrics_df := {| df_columns := inputs_for_df_sli.*1;
                       df_rows := [inputs_for_df_sli.*2] |} in
  csv_columns ←! getitem report_sli_context_columns metric_class ;;
  if bool_decide (df_columns metrics_df ≠ csv_columns) then
    Raise (Exception "Data stored on Ceph should be stored with correct columns")
  else
    let ceph_path :=
      metric_class ++ "/" ++ metric_class ++ "-" ++ end_time_date ++ ".csv" in
    Ok [ {| sc_is_public := false; sc_metric_class := metric_class;
            sc_metrics_df := metrics_df; sc_ceph_path := ceph_path |};
         {| sc_is_public := true; sc_metric_class := metric_class;
            sc_metrics_df := metrics_df; sc_ceph_path := ceph_path |} ].

(** The loop, threading the store calls made so far; an exception ends
    it and leaves the calls already made. *)
Fixpoint store_loop (periodic_metrics : list (string * gmap string sample))
    (calls : list store_call) : list store_call * outcome unit :=
  match periodic_metrics with
  | [] => (calls, Ok tt)
  | (metric_class, metrics) :: rest =>
      match store_metric_class metric_class metrics with
      | Ok made => store_loop rest (calls ++ made)
      | Raise e => (calls, Raise e)
      end
  end.

Definition store_sli_periodic_metrics_to_ceph
    (periodic_metrics : list (string * gmap string sample))
  : list store_call * outcome unit :=
  store_loop periodic_metrics [].

(** The row computed for an indicator, and its declared columns. *)
Definition computed_row (metric_class : string) (metrics : gmap string sample)
  : outcome (list (string * cell)) :=
  evaluation_method ←! getitem df_methods metric_class ;;
  evaluation_method metrics end_time_date end_time_epoch.

Definition written_as_declared (w : store_call) : Prop :=
  report_sli_context_columns !! sc_metric_class w
    = Some (df_columns (sc_metrics_df w)).

End Store.

(** *** Publishing

    [configuration.thoth_weekly_sli] is the gauge, one value per
    [(sli_type, metric_name)] label pair; the function returns the gauge
    as it is pushed. *)
Definition push_metric_data (sli_type : string) (metric_data : gmap string sample)
    (gauge : gmap (string * string) pyfloat) : gmap (string * string) pyfloat :=
  map_fold (λ metric_name weekly_value_metric g,
              match weekly_value_metric with
              | Val v => <[(sli_type, metric_name) := v]> g
              | ErrorMetricRetrieval => g
              end)
           gauge metric_data.

Definition push_thoth_sli_periodic_metrics
    (periodic_metrics : gmap string (gmap string sample))
    (thoth_weekly_sli : gmap (string * string) pyfloat)
  : gmap (string * string) pyfloat :=
  map_fold push_metric_data thoth_weekly_sli periodic_metrics.

End App.
Import App.

(** * Auxiliary definitions *)

(** A sample mapping with the three query keys. *)
Definition sli_of (total success up : sample) : gmap string sample :=
  <["avg_total_request" := total]>
    (<["avg_successfull_request" := success]>
       (<["avg_up_time" := up]> ∅)).

(** The float the ratio branch works with. *)
Definition sample_float (s : sample) : pyfloat :=
  match s with
  | Val f => f
  | ErrorMetricRetrieval => NaN
  end.

(** The table entry of the ratio quantity. *)
Definition percentage_entry : unit_entry :=
  {| u_name := "Successfull requests User-API (avg)";
     u_measurement_unit := "%";
     u_quantities := Some ["avg_total_request"; "avg_successfull_request"] |}.

(** An entry of [html_inputs] as the evaluator leaves it. *)
Definition mk_input (v : pyfloat) (n u : string) : html_input :=
  {| value := v; name := n; measurement_unit := u; change := None |}.

(** The sign presentation in the words of the specification: a leading
    "+" on a positive delta, a leading "-" on a negative one, each before
    the magnitude with three decimals, and the bare number otherwise. *)
Definition spec_change (delta : pyfloat) : change_t :=
  if gt delta zero then ChangeStr ("+" ++ format3f (abs delta))
  else if lt delta zero then ChangeStr ("-" ++ format3f (abs delta))
  else ChangeNum delta.

(** The value and the change field of one quantity of a report. *)
Definition change_at (r : outcome (gmap string html_input)) (c : string)
  : option (pyfloat * option change_t) :=
  match r with
  | Ok hi => (λ h, (value h, change h)) <$> hi !! c
  | Raise _ => None
  end.

(** The registry without one query of one indicator. *)
Definition remove_query (sli_name query_name : string)
    (report_sli_context : list (string * list (string * query_inputs)))
  : list (string * list (string * query_inputs)) :=
  (λ '(name, queries),
     (name, if decide (name = sli_name)
            then filter (λ kv, kv.1 ≠ query_name) queries
            else queries)) <$> report_sli_context.

(** [collected_info[sli_name][query_name]], when both keys are there. *)
Definition collected_at (collected_info : gmap string (gmap string sample))
    (sli_name query_name : string) : option sample :=
  collected_info !! sli_name ≫= (.!! query_name).

(** * Concrete data *)

(** A store holding blobs by key, a reader that knows one CSV text, and
    a template, to run the report step on concrete data. *)
Definition blob_store : Type := gmap string string.

Definition retrieve_blob (store : blob_store) (key : string) : outcome string :=
  match store !! key with
  | Some blob => Ok blob
  | None => Raise (SourceError "NoSuchKey")
  end.

Definition read_one_csv (text : string) (row : list cell)
    (data : string) (names : list string) : outcome (list (list cell)) :=
  if decide (data = text) then Ok [row] else Raise (Exception "EmptyDataError").

Definition week_text : string := "2020-06-01,1590969600,95.0,100.0".
Definition week_row : list cell :=
  [CStr "2020-06-01"; CNum (Fin 1590969600); CNum (Fin 95); CNum (Fin 100)].
Definition week_store : blob_store :=
  {["user_api/user_api-2020-06-01.csv" := week_text]}.

Definition demo_report_inputs (sli : gmap string sample) (store : blob_store)
  : outcome (gmap string html_input) :=
  _report_sli_inputs ["datetime"; "timestamp"] "2020-06-01" blob_store
    retrieve_blob (read_one_csv week_text week_row) sli store.

Definition demo_report (sli : gmap string sample) (store : blob_store)
  : outcome string :=
  _report_sli ["datetime"; "timestamp"] "2020-06-01" blob_store
    retrieve_blob (read_one_csv week_text week_row) (λ _, "<report>") sli store.

(** A metric source answering two queries and failing on every other, a
    reader of the texts it returns and a reduction, to run the
    collection on concrete data. *)
Definition demo_float (text : string) : outcome pyfloat :=
  if decide (text = "1") then Ok (Fin 1)
  else if decide (text = "3") then Ok (Fin 3)
  else if decide (text = "0") then Ok (Fin 0)
  else if decide (text = "-2") then Ok (Fin (-2))
  else Raise ValueError.

Definition demo_query_range (query : string) : outcome (list range_series) :=
  if decide (query = "sum(total)")
  then Ok [ {| rs_values := [(0%Z, "1"); (60%Z, "-2"); (120%Z, "0"); (180%Z, "3")] |} ]
  else Raise (SourceError "timeout").

Definition demo_query (query : string) : outcome (list instant_sample) :=
  if decide (query = "up") then Ok [ {| is_value := (0%Z, "1") |} ]
  else Raise (SourceError "timeout").

Definition demo_count (metrics_vector : list pyfloat) (action : string)
  : outcome pyfloat :=
  Ok (Fin (inject_Z (Z.of_nat (length metrics_vector)))).

Definition demo_context : list (string * list (string * query_inputs)) :=
  [ ("user_api",
     [ ("avg_total_request", QueryDict "sum(total)" true "average");
       ("avg_successfull_request", QueryDict "sum(ok)" true "average");
       ("avg_up_time", QueryStr "up") ]) ].

Definition demo_collect
    (ctx : list (string * list (string * query_inputs)))
  : gmap string (gmap string sample) :=
  collect_metrics false demo_query_range demo_query demo_float demo_count ctx.

(** A [df_method] that appends a column to the User-API row, and the
    declared columns of that indicator. *)
Definition demo_df_method (metrics : gmap string sample) (date : string)
    (epoch : Z) : outcome (list (string * cell)) :=
  Ok [ ("datetime", CStr date);
       ("timestamp", CNum (Fin (inject_Z epoch)));
       ("avg_percentage_successfull_request", CNum (Fin 95));
       ("avg_up_time", CNum (Fin 100));
       ("debug", CStr "extra") ].

Definition demo_columns : gmap string (list string) :=
  {["user_api" := total_columns ["datetime"; "timestamp"]]}.

Definition demo_store (periodic_metrics : list (string * gmap string sample))
  : list store_call * outcome unit :=
  store_sli_periodic_metrics_to_ceph "2020-06-08" 1591574400
    {["user_api" := demo_df_method]} demo_columns periodic_metrics.

(** * Further parts of the code *)

(** ** The queries of the User-API indicator (sli_user_api.py) *)

Module UserApiQueries.

Definition dquote : string := String (Ascii.ascii_of_nat 34) EmptyString.

(** [__init__]: the Prometheus instance is ["dry_run"] in a dry run and
    otherwise the environment variable, whose absence is a [KeyError]. *)
Definition instance_of (dry_run : bool) (environ : gmap string string)
  : outcome string :=
  if dry_run then Ok "dry_run"
  else getitem environ "PROMETHEUS_INSTANCE_USER_API".

(** [_query_sli], with [self.instance], [configuration.environment] and
    [configuration.interval]. *)
Definition _query_sli (instance environment interval : string)
  : list (string * query_inputs) :=
  let query_labels := "{instance=" ++ dquote ++ instance ++ dquote ++ "}" in
  let query_labels_success :=
    "{instance=" ++ dquote ++ instance ++ dquote
      ++ ", status=~" ++ dquote ++ "2.*" ++ dquote ++ "}" in
  let query_labels_up :=
    "{instance=" ++ dquote ++ instance ++ dquote
      ++ ", job=" ++ dquote ++ "Thoth User API Metrics (" ++ environment ++ ")"
      ++ dquote ++ "}" in
  [ ("avg_total_request",
     QueryDict ("sum(flask_http_request_total" ++ query_labels ++ ")")
       true "average");
    ("avg_successfull_request",
     QueryDict ("sum(flask_http_request_total" ++ query_labels_success ++ ")")
       true "average");
    ("avg_up_time",
     QueryStr ("avg_over_time(up" ++ query_labels_up ++ "[" ++ interval ++ "])")) ].

End UserApiQueries.
Import UserApiQueries.

(** ** The email and the run (app.py) *)

Module Reporter.

Definition newline : string := String (Ascii.ascii_of_nat 10) EmptyString.

(** What [generate_email] returns: the text in a dry run, else the text
    wrapped as [MIMEText(message, "html")]. *)
Inductive email_message : Type :=
| Text (message : string)
| MIMEText (message subtype : string).

(** The file [SLO-reporter.html] it writes, and the value it returns. *)
Record generated : Type := {
  html_file : string;
  returned : email_message
}.

Section Email.

(** The environment flag, the five fixed parts of [sli_report], the
    store handle and the ["report_method"] of every indicator. *)
Variable _DRY_RUN : bool.
Variable report_start report_style report_intro : string.
Variable report_references report_end : string.
Variable CephStore : Type.
Variable ceph_sli : CephStore.
Variable report_methods :
  gmap string (gmap string sample → CephStore → outcome string).

(** The loop over [sli_metrics.items()]. *)
Definition email_sections (sli_metrics : list (string * gmap string sample))
    (message : string) : outcome string :=
  foldl (λ acc '(sli_name, metric_data),
           message ←! acc ;;
           report_method ←! getitem report_methods sli_name ;;
           section ←! report_method metric_data ceph_sli ;;
           Ok (message ++ newline ++ section))
        (Ok message) sli_metrics.

Definition generate_email (sli_metrics : list (string * gmap string sample))
  : outcome generated :=
  message ←! email_sections sli_metrics
               (report_start ++ report_style ++ report_intro) ;;
  let message := message ++ report_references ++ report_end in
  Ok {| html_file := message;
        returned := if _DRY_RUN then Text message
                    else MIMEText message "html" |}.

End Email.

(** *** One run and the main loop

    The calls a run makes are recorded in order; what each call returns
    or raises is given by the environment. *)

Inductive event : Type :=
| EvConfiguration (start_time end_time number_days : Z) (dry_run : bool)
| EvCollect
| EvStore
| EvPush
| EvGenerateEmail
| EvOpenBrowser
| EvSendEmail.

Definition eff (A : Type) : Type := list event * outcome A.

Definition eret {A} (a : A) : eff A := ([], Ok a).

Definition ecall {A} (ev : event) (r : outcome A) : eff A := ([ev], r).

Definition ebind {A B} (m : eff A) (k : A → eff B) : eff B :=
  match m.2 with
  | Ok a => ((m.1 ++ (k a).1)%list, (k a).2)
  | Raise e => (m.1, Raise e)
  end.

(** [try: ... except Exception: pass] *)
Definition etry {A} (m : eff A) : eff unit := (m.1, Ok tt).

Notation "x ←? m ;; k" := (ebind m (λ x, k))
  (at level 100, m at next level, right associativity, only parsing).

(** A datetime is its POSIX time in microseconds. *)
Definition timedelta_days (days : Z) : Z := (days * 86400000000)%Z.

(** [strftime("%A")] of a UTC datetime; 1970-01-01 was a Thursday. *)
Definition day_name (t : Z) : string :=
  match ((t / 86400000000 + 3) mod 7)%Z with
  | 0%Z => "Monday"
  | 1%Z => "Tuesday"
  | 2%Z => "Wednesday"
  | 3%Z => "Thursday"
  | 4%Z => "Friday"
  | 5%Z => "Saturday"
  | _ => "Sunday"
  end.

(** The message of the exception [main] raises. *)
Definition several_days_message (days : Z) : string :=
  "You need to set THOTH_ONLY_STORE_ON_CEPH to 1 if you want to evaluate metrics for more than one day."
    ++ " Otherwise " ++ NilZero.string_of_int (Z.to_int days)
    ++ " emails will be sent out.".

Section Run.

(** The two environment flags, the configuration built for a run and
    the functions a run calls, each with what it returns or raises. *)
Variable _DRY_RUN _ONLY_STORE_ON_CEPH : bool.
Variable Configuration SliValues Message : Type.
Variable new_configuration : Z → Z → Z → bool → outcome Configuration.
Variable email_day : Configuration → string.
Variable collect_metrics_of : Configuration → outcome SliValues.
Variable store_of : Configuration → SliValues → outcome unit.
Variable push_of : Configuration → SliValues → outcome unit.
Variable generate_email_of : Configuration → SliValues → outcome Message.
Variable open_in_browser : Message → outcome unit.
Variable send_sli_email_of : Configuration → Message → outcome unit.

Definition run_slo_reporter (start_time end_time number_days : Z)
    (dry_run : bool) (day_of_week : string) : eff unit :=
  configuration ←? ecall (EvConfiguration start_time end_time number_days dry_run)
                     (new_configuration start_time end_time number_days dry_run) ;;
  sli_values_map ←? ecall EvCollect (collect_metrics_of configuration) ;;
  _ ←? (if negb _DRY_RUN then
          _ ←? ecall EvStore (store_of configuration sli_values_map) ;;
          etry (ecall EvPush (push_of configuration sli_values_map))
        else eret tt) ;;
  _ ←? (if _DRY_RUN then
          email_message ←? ecall EvGenerateEmail
                             (generate_email_of configuration sli_values_map) ;;
          ecall EvOpenBrowser (open_in_browser email_message)
        else eret tt) ;;
  if negb _DRY_RUN && negb _ONLY_STORE_ON_CEPH then
    if decide (day_of_week = email_day configuration) then
      email_message ←? ecall EvGenerateEmail
                         (generate_email_of configuration sli_values_map) ;;
      ecall EvSendEmail (send_sli_email_of configuration email_message)
    else eret tt
  else eret tt.

(** The two numbers read from the environment and the clock, read once
    in every iteration. *)
Variable INTERVAL_REPORT_DAYS EVALUATION_METRICS_DAYS : Z.
Variable utcnow : nat → Z.

Definition main_iteration (i : nat) : eff unit :=
  let _END_TIME := (utcnow i - timedelta_days (Z.of_nat i))%Z in
  let _START_TIME := (_END_TIME - timedelta_days INTERVAL_REPORT_DAYS)%Z in
  run_slo_reporter _START_TIME _END_TIME INTERVAL_REPORT_DAYS _DRY_RUN
    (day_name _END_TIME).

Fixpoint main_loop (iterations : list nat) : eff unit :=
  match iterations with
  | [] => eret tt
  | i :: rest => _ ←? main_iteration i ;; main_loop rest
  end.

Definition main : eff unit :=
  if (1 <? EVALUATION_METRICS_DAYS)%Z && negb _ONLY_STORE_ON_CEPH then
    ([], Raise (Exception (several_days_message EVALUATION_METRICS_DAYS)))
  else main_loop (seq 0 (Z.to_nat EVALUATION_METRICS_DAYS)).

End Run.

End Reporter.
Import Reporter.

(** * Further auxiliary definitions *)

(** A sample that is the failure marker or a finite number. *)
Definition marker_or_finite (s : sample) : Prop :=
  match s with
  | ErrorMetricRetrieval | Val (Fin _) => True
  | Val _ => False
  end.

(** The cell of a row at a position; a short row is padded with NaN. *)
Definition cell_at (i : nat) (row : list cell) : cell :=
  default (CNum NaN) (row !! i).

Definition numeric (c : cell) : Prop :=
  match c with
  | CNum _ => True
  | CStr _ => False
  end.

(** The evaluation and the report of one concrete week. *)
Definition week_sli : gmap string sample :=
  sli_of (Val (Fin 100)) (Val (Fin 90)) ErrorMetricRetrieval.

Definition week_evaluated : gmap string html_input :=
  <["avg_up_time" := mk_input NaN "Uptime User-API (avg)" "%"]>
    (<["avg_percentage_successfull_request" :=
         mk_input (Fin 90) "Successfull requests User-API (avg)" "%"]> ∅).

Definition week_report : gmap string html_input :=
  <["avg_up_time" :=
      set_change (mk_input NaN "Uptime User-API (avg)" "%") (ChangeNum NaN)]>
    (<["avg_percentage_successfull_request" :=
         set_change (mk_input (Fin 90) "Successfull requests User-API (avg)" "%")
           (ChangeStr "--5.000")]> ∅).

(** A prior snapshot whose ratio column holds the failure marker: a text
    that is neither a number nor one of the texts [read_csv] takes for a
    missing value, so the cell is read as that string. *)
Definition text_week_text : string :=
  "2020-06-01,1590969600,ErrorMetricRetrieval,100.0".
Definition text_row : list cell :=
  [CStr "2020-06-01"; CNum (Fin 1590969600);
   CStr "ErrorMetricRetrieval"; CNum (Fin 100)].
Definition text_week_store : blob_store :=
  {["user_api/user_api-2020-06-01.csv" := text_week_text]}.

(** Two indicators for the persistence step: one whose row has its
    declared columns, and the User-API one with the appended column. *)
Definition demo_df_solved (metrics : gmap string sample) (date : string)
    (epoch : Z) : outcome (list (string * cell)) :=
  Ok [ ("datetime", CStr date);
       ("timestamp", CNum (Fin (inject_Z epoch)));
       ("solved", CNum (Fin 3)) ].

Definition demo_df_user_api (metrics : gmap string sample) (date : string)
    (epoch : Z) : outcome (list (string * cell)) :=
  Ok [ ("datetime", CStr date);
       ("timestamp", CNum (Fin (inject_Z epoch)));
       ("avg_percentage_successfull_request", CNum (Fin 95));
       ("avg_up_time", CNum (Fin 100)) ].

Definition demo_columns2 : gmap string (list string) :=
  <["solved" := ["datetime"; "timestamp"; "solved"]]> demo_columns.

(** The two store calls made for that User-API row. *)
Definition demo_user_api_frame : DataFrame :=
  {| df_columns := total_columns ["datetime"; "timestamp"];
     df_rows := [[ CStr "2020-06-08"; CNum (Fin (inject_Z 1591574400));
                   CNum (Fin 95); CNum (Fin 100) ]] |}.

Definition demo_user_api_call (is_public : bool) : store_call :=
  {| sc_is_public := is_public; sc_metric_class := "user_api";
     sc_metrics_df := demo_user_api_frame;
     sc_ceph_path := "user_api/user_api-2020-06-08.csv" |}.

(** The sections of the email, each after a newline. *)
Definition sections_text (sections : list string) : string :=
  foldr (λ section text, newline ++ section ++ text) "" sections.

(** The event that an email is sent, and the number of such events. *)
Definition is_send (ev : event) : bool :=
  match ev with
  | EvSendEmail => true
  | _ => false
  end.

Definition is_configuration (ev : event) : bool :=
  match ev with
  | EvConfiguration _ _ _ _ => true
  | _ => false
  end.

Definition emails_sent (trace : list event) : nat :=
  length (List.filter is_send trace).

(** A metric source that is down. *)
Definition down_range (query : string) : outcome (list range_series) :=
  Raise (SourceError "down").

Definition down_instant (query : string) : outcome (list instant_sample) :=
  Raise (SourceError "down").

(** Report methods for the email: one that succeeds and the User-API
    one, whose prior snapshot is absent from the empty store. *)
Definition demo_solved_report (metric_data : gmap string sample)
    (ceph_sli : blob_store) : outcome string :=
  Ok "<solved>".

Definition demo_report_methods
  : gmap string (gmap string sample → blob_store → outcome string) :=
  <["solved" := demo_solved_report]> {["user_api" := demo_report]}.

(** An environment for a run: the configuration is its end time, emails
    go out on Mondays, and every call succeeds. *)
Definition demo_run (dry only_store : bool)
    (push_result : outcome unit) (start_time end_time number_days : Z)
    (day_of_week : string) : eff unit :=
  run_slo_reporter dry only_store Z unit string
    (λ _ end_time _ _, Ok end_time) (λ _, "Monday")
    (λ _, Ok tt) (λ _ _, Ok tt) (λ _ _, push_result)
    (λ _ _, Ok "<email>") (λ _, Ok tt) (λ _ _, Ok tt)
    start_time end_time number_days dry day_of_week.

Definition demo_main (dry only_store : bool) (interval days : Z) : eff unit :=
  main dry only_store Z unit string
    (λ _ end_time _ _, Ok end_time) (λ _, "Monday")
    (λ _, Ok tt) (λ _ _, Ok tt) (λ _ _, Ok tt)
    (λ _ _, Ok "<email>") (λ _, Ok tt) (λ _ _, Ok tt)
    interval days (λ _, 1591574400000000%Z).

(** * Properties *)

Example round3_tie_even : round3 (Fin (5 # 2000)) = Fin (1 # 500).
Proof. reflexivity. Qed.

Example format3f_pos : format3f (Fin 5) = "5.000".
Proof. reflexivity. Qed.

Example format3f_neg : format3f (Fin (- (12345 # 10000))) = "-1.234".
Proof. reflexivity. Qed.

Example evaluate_95 :
  change_at (_evaluate_sli (sli_of (Val (Fin 100)) (Val (Fin 95)) (Val (Fin 1))))
            "avg_percentage_successfull_request"
  = Some (Fin 95, None).
Proof. vm_compute. reflexivity. Qed.

Example evaluate_unavailable_uptime :
  change_at (_evaluate_sli
               (sli_of (Val (Fin 100)) (Val (Fin 95)) ErrorMetricRetrieval))
            "avg_up_time"
  = Some (NaN, None).
Proof. vm_compute. reflexivity. Qed.

Example evaluate_unavailable_numerator :
  change_at (_evaluate_sli
               (sli_of (Val (Fin 100)) ErrorMetricRetrieval (Val (Fin 1))))
            "avg_percentage_successfull_request"
  = Some (NaN, None).
Proof. vm_compute. reflexivity. Qed.

(** ** Floats *)

Lemma ne_nan_r (x : pyfloat) : ne x NaN = true.
Proof. by destruct x. Qed.

Lemma Qltb_true (a b : Q) : Qltb a b = true ↔ (a < b)%Q.
Proof.
  unfold Qltb. rewrite negb_true_iff. split.
  - intros H. apply Qnot_le_lt. intros Hle.
    apply Qle_bool_iff in Hle. congruence.
  - intros H. destruct (Qle_bool b a) eqn:E; [|done].
    apply Qle_bool_iff in E. exfalso. by apply (Qlt_not_le a b).
Qed.

Lemma Qltb_false (a b : Q) : Qltb a b = false ↔ (b <= a)%Q.
Proof.
  unfold Qltb. rewrite negb_false_iff. apply Qle_bool_iff.
Qed.

(** A divisor that passed the [> 0] test never faults. *)
Lemma div_gt0_ok (x y : pyfloat) :
  gt y zero = true → ∃ r, div x y = Ok r.
Proof.
  destruct y as [b| | |]; simpl; try done.
  - intros Hb. apply Qltb_true in Hb.
    destruct (Qeq_bool b 0) eqn:E.
    + apply Qeq_bool_iff in E. rewrite E in Hb. by apply Qlt_irrefl in Hb.
    + destruct x; eauto.
  - intros _. destruct x; eauto.
Qed.

(** ** The evaluator *)

(** The test written [!= np.nan] holds of every float, NaN included. *)
Lemma all_not_nan_true (results : gmap string pyfloat) :
  all_not_nan results = true.
Proof.
  unfold all_not_nan. apply forallb_forall. intros x _. apply ne_nan_r.
Qed.

Lemma percentage_value_eq (sli : gmap string sample) (total success : sample) :
  sli !! "avg_total_request" = Some total →
  sli !! "avg_successfull_request" = Some success →
  percentage_value sli percentage_entry =
    (percentage ←! (if gt (sample_float total) zero
                    then div (sample_float success) (sample_float total)
                    else Ok zero) ;;
     Ok (abs (round3 (mul percentage (Fin 100))))).
Proof.
  intros Ht Hs. unfold percentage_value, fill_results, getitem. simpl.
  rewrite Ht. simpl. rewrite Hs. simpl.
  rewrite all_not_nan_true.
  unfold getitem. rewrite lookup_insert_ne by done. rewrite lookup_insert_eq.
  simpl. destruct (gt _ zero); [|done].
  by rewrite lookup_insert_eq.
Qed.

Lemma plain_value_eq (sli : gmap string sample) (k : string) (s : sample) :
  sli !! k = Some s →
  plain_value sli k =
    Ok (match s with
        | Val f => abs (round3 (mul f (Fin 100)))
        | ErrorMetricRetrieval => NaN
        end).
Proof.
  intros Hk. unfold plain_value, getitem. rewrite Hk. by destruct s.
Qed.

Lemma evaluate_sli_eq (sli : gmap string sample) (total success up : sample) :
  sli !! "avg_total_request" = Some total →
  sli !! "avg_successfull_request" = Some success →
  sli !! "avg_up_time" = Some up →
  ∃ v,
    percentage_value sli percentage_entry = Ok v ∧
    _evaluate_sli sli =
      Ok (<["avg_up_time" :=
              mk_input (match up with
                        | Val f => abs (round3 (mul f (Fin 100)))
                        | ErrorMetricRetrieval => NaN
                        end) "Uptime User-API (avg)" "%"]>
            (<["avg_percentage_successfull_request" :=
                 mk_input v "Successfull requests User-API (avg)" "%"]> ∅)).
Proof.
  intros Ht Hs Hu.
  assert (∃ v, percentage_value sli percentage_entry = Ok v) as [v Hv].
  { rewrite (percentage_value_eq sli total success Ht Hs).
    destruct (gt (sample_float total) zero) eqn:E; [|by eexists].
    destruct (div_gt0_ok (sample_float success) _ E) as [r ->]. by eexists. }
  exists v. split; [done|].
  unfold _evaluate_sli, evaluate_quantity. simpl.
  fold percentage_entry. rewrite Hv. simpl.
  by rewrite (plain_value_eq sli "avg_up_time" up Hu).
Qed.

(** C10. On a sample mapping that holds the three query keys, whatever
    floats or failure strings they carry, [_evaluate_sli] returns a
    mapping with an entry for each of the two quantities of the table and
    for nothing else, and each entry's [name] and [measurement_unit] are
    the table's; only [value] depends on the samples. *)
Theorem evaluate_sli_entries (sli : gmap string sample) (total success up : sample) :
  sli !! "avg_total_request" = Some total →
  sli !! "avg_successfull_request" = Some success →
  sli !! "avg_up_time" = Some up →
  ∃ html_inputs,
    _evaluate_sli sli = Ok html_inputs ∧
    dom html_inputs =
      ({["avg_percentage_successfull_request"; "avg_up_time"]} : gset string) ∧
    (∀ q e, (q, e) ∈ _USER_API_MEASUREMENT_UNIT →
       ∃ h, html_inputs !! q = Some h ∧
            name h = u_name e ∧
            measurement_unit h = u_measurement_unit e ∧
            change h = None) ∧
    (∀ q, is_Some (html_inputs !! q) → q ∈ sli_columns).
Proof.
  intros Ht Hs Hu.
  destruct (evaluate_sli_eq sli total success up Ht Hs Hu) as (v & _ & ->).
  eexists. split; [reflexivity|]. split; [|split].
  - rewrite !dom_insert_L, dom_empty_L. set_solver.
  - intros q e Hin. unfold _USER_API_MEASUREMENT_UNIT in Hin.
    apply elem_of_cons in Hin as [Heq|Hin].
    + inversion Heq; subst. eexists. split.
      * rewrite lookup_insert_ne by done. apply lookup_insert_eq.
      * done.
    + apply elem_of_cons in Hin as [Heq|Hin].
      * inversion Heq; subst. eexists. split; [apply lookup_insert_eq|done].
      * by apply elem_of_nil in Hin.
  - intros q Hq. apply elem_of_dom in Hq.
    rewrite !dom_insert_L, dom_empty_L in Hq.
    unfold sli_columns. simpl.
    rewrite !elem_of_union, !elem_of_singleton, elem_of_empty in Hq.
    rewrite !elem_of_cons. tauto.
Qed.

Lemma evaluate_sli_entries_witness :
  ∃ html_inputs,
    _evaluate_sli (sli_of ErrorMetricRetrieval (Val (Fin 95)) (Val (Fin 1)))
      = Ok html_inputs ∧
    dom html_inputs =
      ({["avg_percentage_successfull_request"; "avg_up_time"]} : gset string).
Proof.
  destruct (evaluate_sli_entries
              (sli_of ErrorMetricRetrieval (Val (Fin 95)) (Val (Fin 1)))
              ErrorMetricRetrieval (Val (Fin 95)) (Val (Fin 1)))
    as (hi & H1 & H2 & _); [reflexivity..|].
  exists hi. by split.
Defined.

(** C5. With a zero or an unavailable denominator the ratio quantity is
    evaluated to 0: the evaluator returns, it raises no division fault,
    and the value is the number 0 (in particular for total = 0 and
    success = 0). *)
Theorem ratio_zero_or_unavailable_denominator
    (sli : gmap string sample) (total success up : sample) :
  sli !! "avg_total_request" = Some total →
  sli !! "avg_successfull_request" = Some success →
  sli !! "avg_up_time" = Some up →
  total = ErrorMetricRetrieval ∨ (∃ q, total = Val (Fin q) ∧ (q == 0)%Q) →
  ∃ html_inputs h,
    _evaluate_sli sli = Ok html_inputs ∧
    html_inputs !! "avg_percentage_successfull_request" = Some h ∧
    value h = Fin 0.
Proof.
  intros Ht Hs Hu Hden.
  destruct (evaluate_sli_eq sli total success up Ht Hs Hu) as (v & Hv & ->).
  do 2 eexists. split; [reflexivity|]. split.
  - rewrite lookup_insert_ne by done. apply lookup_insert_eq.
  - simpl. rewrite (percentage_value_eq sli total success Ht Hs) in Hv.
    assert (gt (sample_float total) zero = false) as Hgt.
    { destruct Hden as [->|(q & -> & Hq)]; [done|].
      simpl. apply Qltb_false. rewrite Hq. apply Qle_refl. }
    rewrite Hgt in Hv. simpl in Hv. by inversion Hv.
Qed.

Lemma ratio_zero_or_unavailable_denominator_witness :
  ∃ html_inputs h,
    _evaluate_sli (sli_of (Val (Fin 0)) (Val (Fin 0)) (Val (Fin 1)))
      = Ok html_inputs ∧
    html_inputs !! "avg_percentage_successfull_request" = Some h ∧
    value h = Fin 0.
Proof.
  apply (ratio_zero_or_unavailable_denominator
           (sli_of (Val (Fin 0)) (Val (Fin 0)) (Val (Fin 1)))
           (Val (Fin 0)) (Val (Fin 0)) (Val (Fin 1)));
    [reflexivity..|].
  right. exists 0%Q. split; reflexivity.
Defined.

(** C1. The evaluator at a sample mapping whose two ratio queries both
    failed: the ratio quantity is evaluated to the number 0, not to NaN.
    The branch that assigns NaN is guarded by a test that compares with
    [!= np.nan], which holds of every float ([all_not_nan_true]). *)
Theorem unavailable_ratio_samples_evaluate_to_zero :
  ∃ html_inputs h,
    _evaluate_sli (sli_of ErrorMetricRetrieval ErrorMetricRetrieval (Val (Fin 1)))
      = Ok html_inputs ∧
    html_inputs !! "avg_percentage_successfull_request" = Some h ∧
    value h = Fin 0 ∧
    is_nan (value h) = false.
Proof.
  destruct (evaluate_sli_eq
              (sli_of ErrorMetricRetrieval ErrorMetricRetrieval (Val (Fin 1)))
              ErrorMetricRetrieval ErrorMetricRetrieval (Val (Fin 1)))
    as (v & Hv & ->); [reflexivity..|].
  rewrite (percentage_value_eq _ ErrorMetricRetrieval ErrorMetricRetrieval)
    in Hv by reflexivity.
  simpl in Hv. inversion Hv; subst v.
  do 2 eexists. split; [reflexivity|]. split.
  - rewrite lookup_insert_ne by done. apply lookup_insert_eq.
  - by split.
Qed.

(** ** Range of the evaluated percentages *)

Lemma round_half_even_le (x : Q) (n : Z) :
  (x <= inject_Z n)%Q → (round_half_even x <= n)%Z.
Proof.
  intros Hx. unfold round_half_even.
  pose proof (Qfloor_le x) as Hfl.
  assert (Qfloor x <= n)%Z as Hfn.
  { rewrite Zle_Qle. by apply Qle_trans with x. }
  assert ((1 # 2 <= x - inject_Z (Qfloor x))%Q → (Qfloor x + 1 <= n)%Z) as Hup.
  { intros Hhalf.
    assert (inject_Z (Qfloor x) < inject_Z n)%Q as Hlt.
    { apply Qlt_le_trans with x; [|done].
      apply Qlt_minus_iff. apply Qlt_le_trans with (1 # 2)%Q; [done|].
      exact Hhalf. }
    rewrite <- Zlt_Qlt in Hlt. lia. }
  destruct (Qcompare_spec (x - inject_Z (Qfloor x)) (1 # 2)) as [He|Hl|Hg].
  - destruct (Z.even (Qfloor x)); [done|].
    apply Hup. rewrite He. apply Qle_refl.
  - done.
  - apply Hup. by apply Qlt_le_weak.
Qed.

Lemma round_half_even_nonneg (x : Q) :
  (0 <= x)%Q → (0 <= round_half_even x)%Z.
Proof.
  intros Hx. unfold round_half_even.
  assert (0 <= Qfloor x)%Z as Hfl.
  { change 0%Z with (Qfloor 0). by apply Qfloor_resp_le. }
  destruct (_ ?= _)%Q; [destruct (Z.even _)|..]; lia.
Qed.

Lemma Qround3_eq (q : Q) : (Qround3 q == round_half_even (q * 1000) # 1000)%Q.
Proof. unfold Qround3. apply Qred_correct. Qed.

Lemma Qabs_Qround3_le_100 (x : Q) :
  (0 <= x)%Q → (x <= 100)%Q → (Qabs (Qround3 x) <= 100)%Q.
Proof.
  intros H0 H100.
  assert (0 <= round_half_even (x * 1000))%Z as Hlo.
  { apply round_half_even_nonneg. by apply Qmult_le_0_compat. }
  assert (round_half_even (x * 1000) <= 100000)%Z as Hhi.
  { apply round_half_even_le. change (inject_Z 100000) with (100 * 1000)%Q.
    by apply Qmult_le_compat_r. }
  rewrite Qround3_eq. unfold Qabs, Qle. simpl.
  rewrite Z.abs_eq by done. lia.
Qed.

(** What [abs(round(x, 3))] yields: never a negative float, and when
    finite a whole number of thousandths. *)
Lemma abs_round3_shape (x : pyfloat) :
  lt (abs (round3 x)) zero = false ∧
  ∀ q, abs (round3 x) = Fin q → ∃ n : Z, (0 <= n)%Z ∧ (q == n # 1000)%Q.
Proof.
  destruct x as [a| | |]; (split; [|try done]); try reflexivity.
  - apply Qltb_false. apply Qabs_nonneg.
  - intros q [= <-]. exists (Z.abs (round_half_even (a * 1000))).
    split; [lia|]. rewrite Qround3_eq. reflexivity.
Qed.

Lemma ratio_percent_le_100 (s t : Q) :
  (0 <= s)%Q → (s <= t)%Q → (0 < t)%Q →
  (0 <= s / t * 100)%Q ∧ (s / t * 100 <= 100)%Q.
Proof.
  intros Hs Hst Ht.
  assert (0 <= s / t)%Q as H0.
  { apply Qle_shift_div_l; [done|]. by rewrite Qmult_0_l. }
  assert (s / t <= 1)%Q as H1.
  { apply Qle_shift_div_r; [done|]. by rewrite Qmult_1_l. }
  split.
  - by apply Qmult_le_0_compat.
  - change 100%Q with (1 * 100)%Q at 2. by apply Qmult_le_compat_r.
Qed.

(** C7, as the code has it.  Every evaluated value is [abs(round(.., 3))]
    of a hundredfold or NaN: it is never negative and, when finite, a
    whole number of thousandths.  Nothing clamps it: it stays within 100
    when the samples are in range, that is when
    0 <= successful <= total for the ratio and 0 <= uptime <= 1. *)
Theorem evaluated_percentage_range
    (sli : gmap string sample) (total success up : sample) :
  sli !! "avg_total_request" = Some total →
  sli !! "avg_successfull_request" = Some success →
  sli !! "avg_up_time" = Some up →
  ∃ html_inputs,
    _evaluate_sli sli = Ok html_inputs ∧
    ∀ c h, html_inputs !! c = Some h →
      lt (value h) zero = false ∧
      (∀ q, value h = Fin q → ∃ n : Z, (0 <= n)%Z ∧ (q == n # 1000)%Q) ∧
      (c = "avg_percentage_successfull_request" →
       ∀ t s, total = Val (Fin t) → success = Val (Fin s) →
              (0 <= s)%Q → (s <= t)%Q →
              gt (value h) (Fin 100) = false) ∧
      (c = "avg_up_time" →
       ∀ u, up = Val (Fin u) → (0 <= u)%Q → (u <= 1)%Q →
            gt (value h) (Fin 100) = false).
Proof.
  intros Ht Hs Hu.
  destruct (evaluate_sli_eq sli total success up Ht Hs Hu) as (v & Hv & ->).
  eexists. split; [reflexivity|]. intros c h Hc.
  rewrite (percentage_value_eq sli total success Ht Hs) in Hv.
  destruct (decide (c = "avg_up_time")) as [->|Hne1].
  - rewrite lookup_insert_eq in Hc. injection Hc as <-. simpl.
    destruct up as [f|].
    + destruct (abs_round3_shape (mul f (Fin 100))) as [Hneg Hfin].
      split; [done|]. split; [done|]. split; [done|].
      intros _ u [= ->] Hu0 Hu1. simpl. apply Qltb_false.
      apply Qabs_Qround3_le_100.
      * by apply Qmult_le_0_compat.
      * change 100%Q with (1 * 100)%Q at 2. by apply Qmult_le_compat_r.
    + split; [done|]. split; [done|]. split; [done|]. by intros _ u [=].
  - rewrite lookup_insert_ne in Hc by done.
    destruct (decide (c = "avg_percentage_successfull_request")) as [->|Hne2].
    2: { rewrite lookup_insert_ne in Hc by done. by rewrite lookup_empty in Hc. }
    rewrite lookup_insert_eq in Hc. injection Hc as <-. simpl.
    destruct (gt (sample_float total) zero) eqn:Hgt.
    + destruct (div (sample_float success) (sample_float total)) as [p|e] eqn:Hdiv;
        [|done].
      simpl in Hv. injection Hv as <-.
      destruct (abs_round3_shape (mul p (Fin 100))) as [Hneg Hfin].
      split; [done|]. split; [done|]. split; [|done].
      intros _ t s -> -> Hs0 Hst. simpl in Hgt, Hdiv.
      apply Qltb_true in Hgt.
      destruct (Qeq_bool t 0); [done|]. injection Hdiv as <-.
      simpl. apply Qltb_false.
      destruct (ratio_percent_le_100 s t Hs0 Hst Hgt).
      by apply Qabs_Qround3_le_100.
    + simpl in Hv. injection Hv as <-.
      split; [done|]. split; [|split; done].
      intros q [= <-]. exists 0%Z. split; [done|reflexivity].
Qed.

Lemma evaluated_percentage_range_witness :
  ∃ html_inputs,
    _evaluate_sli (sli_of (Val (Fin 100)) (Val (Fin 95)) (Val (Fin 1)))
      = Ok html_inputs ∧
    ∀ h, html_inputs !! "avg_percentage_successfull_request" = Some h →
         lt (value h) zero = false ∧ gt (value h) (Fin 100) = false.
Proof.
  destruct (evaluated_percentage_range
              (sli_of (Val (Fin 100)) (Val (Fin 95)) (Val (Fin 1)))
              (Val (Fin 100)) (Val (Fin 95)) (Val (Fin 1)))
    as (hi & Heval & Hrange); [reflexivity..|].
  exists hi. split; [exact Heval|]. intros h Hh.
  destruct (Hrange _ h Hh) as (Hneg & _ & Hpct & _).
  split; [exact Hneg|].
  apply (Hpct eq_refl 100%Q 95%Q); [reflexivity..| |]; by vm_compute.
Defined.

(** C7 fails as stated: with more successful requests than requests the
    evaluated percentage is 200. *)
Lemma evaluated_percentage_above_100 :
  ∃ html_inputs h,
    _evaluate_sli (sli_of (Val (Fin 100)) (Val (Fin 200)) (Val (Fin 1)))
      = Ok html_inputs ∧
    html_inputs !! "avg_percentage_successfull_request" = Some h ∧
    value h = Fin 200 ∧
    gt (value h) (Fin 100) = true.
Proof.
  destruct (evaluate_sli_eq
              (sli_of (Val (Fin 100)) (Val (Fin 200)) (Val (Fin 1)))
              (Val (Fin 100)) (Val (Fin 200)) (Val (Fin 1)))
    as (v & Hv & ->); [reflexivity..|].
  rewrite (percentage_value_eq _ (Val (Fin 100)) (Val (Fin 200)))
    in Hv by reflexivity.
  vm_compute in Hv. injection Hv as <-.
  do 2 eexists. split; [reflexivity|]. split.
  - rewrite lookup_insert_ne by done. apply lookup_insert_eq.
  - by split.
Qed.

(** ** The report step *)

Example report_plus_5 :
  change_at (demo_report_inputs
               (sli_of (Val (Fin 100)) (Val (Fin 100)) (Val (Fin 1))) week_store)
            "avg_percentage_successfull_request"
  = Some (Fin 100, Some (ChangeStr "+5.000")).
Proof. vm_compute. reflexivity. Qed.

(** A prior row that stops after the default columns: the cells of the
    quantity columns are NaN, and so is the change. *)
Example report_short_row :
  change_at (_report_sli_inputs ["datetime"; "timestamp"] "2020-06-01"
               blob_store retrieve_blob
               (read_one_csv week_text
                  [CStr "2020-06-01"; CNum (Fin 1590969600)])
               (sli_of (Val (Fin 100)) (Val (Fin 95)) (Val (Fin 1))) week_store)
            "avg_percentage_successfull_request"
  = Some (Fin 95, Some (ChangeNum NaN)).
Proof. vm_compute. reflexivity. Qed.

(** An unchanged value: the change is the bare difference. *)
Example report_zero_delta :
  change_at (demo_report_inputs
               (sli_of (Val (Fin 100)) (Val (Fin 95)) (Val (Fin 1))) week_store)
            "avg_up_time"
  = Some (Fin 100, Some (ChangeNum (Fin 0))).
Proof. vm_compute. reflexivity. Qed.

(** C2. The report step one week after a stored 95.0, with a current
    value of 90.0: the delta is -5 and the change field is written with
    two minus signs, because the negative branch puts "-" before the
    format of the negative number, which carries its own sign.  The
    specification's presentation of that delta is "-5.000". *)
Theorem report_negative_delta_doubles_sign :
  change_at (demo_report_inputs
               (sli_of (Val (Fin 100)) (Val (Fin 90)) (Val (Fin 1))) week_store)
            "avg_percentage_successfull_request"
    = Some (Fin 90, Some (ChangeStr "--5.000")) ∧
  spec_change (sub (Fin 90) (Fin 95)) = ChangeStr "-5.000" ∧
  change_of (sub (Fin 90) (Fin 95)) ≠ spec_change (sub (Fin 90) (Fin 95)).
Proof. vm_compute. repeat split; done. Qed.

Lemma Qabs_pos_eq (q : Q) : (0 < q)%Q → Qabs q = q.
Proof.
  destruct q as [n d]. unfold Qlt, Qabs. simpl. intros H.
  f_equal. lia.
Qed.

Lemma Qabs_idemp (q : Q) : Qabs (Qabs q) = Qabs q.
Proof. destruct q as [n d]. unfold Qabs. f_equal. lia. Qed.

(** On a delta that is not negative the code presents the change as the
    specification words it. *)
Lemma change_of_nonnegative (diff : pyfloat) :
  lt diff zero = false → change_of diff = spec_change diff.
Proof.
  intros Hlt. unfold change_of, spec_change. rewrite Hlt.
  destruct (gt diff zero) eqn:Hgt; [|done].
  destruct diff as [q| | |]; try done.
  simpl in Hgt. apply Qltb_true in Hgt.
  cbn [abs]. by rewrite Qabs_pos_eq.
Qed.

(** On a negative delta the code's string starts with two minus signs. *)
Lemma change_of_negative (diff : pyfloat) :
  lt diff zero = true →
  change_of diff = ChangeStr ("--" ++ format3f (abs diff)) ∧
  spec_change diff = ChangeStr ("-" ++ format3f (abs diff)).
Proof.
  intros Hlt. unfold change_of, spec_change. rewrite Hlt.
  destruct diff as [q| | |]; try done.
  unfold lt in Hlt. simpl in Hlt.
  assert (Qltb 0 q = false) as Hgt.
  { apply Qltb_false. apply Qlt_le_weak. by apply Qltb_true. }
  cbn [gt zero]. rewrite Hgt. split; [|done].
  cbn [abs format3f]. rewrite Hlt, Qabs_idemp.
  assert (Qltb (Qabs q) 0 = false) as ->.
  { apply Qltb_false. apply Qabs_nonneg. }
  done.
Qed.

Section ReportProperties.

Context (default_columns : list string) (last_week_time : string).
Context (CephStore : Type).
Context (retrieve_thoth_sli_from_ceph : CephStore → string → outcome string).
Context (read_csv : string → list string → outcome (list (list cell))).
Context (thoth_user_api_template : gmap string html_input → string).

Let report_inputs :=
  _report_sli_inputs default_columns last_week_time CephStore
    retrieve_thoth_sli_from_ceph read_csv.
Let report :=
  _report_sli default_columns last_week_time CephStore
    retrieve_thoth_sli_from_ceph read_csv thoth_user_api_template.
Abbreviation prior_rows :=
  (UserApi.prior_rows default_columns last_week_time CephStore
     retrieve_thoth_sli_from_ceph read_csv).

Lemma report_inputs_eq (sli : gmap string sample) (ceph_sli : CephStore) :
  report_inputs sli ceph_sli =
    (html_inputs ←! _evaluate_sli sli ;;
     rows ←! prior_rows ceph_sli ;;
     let last_week_data :=
       {| df_columns := total_columns default_columns; df_rows := rows |} in
     hi ←! report_column last_week_data html_inputs
             "avg_percentage_successfull_request" ;;
     report_column last_week_data hi "avg_up_time").
Proof.
  unfold report_inputs, _report_sli_inputs, UserApi.prior_rows.
  destruct (_evaluate_sli sli); [|done]. simpl.
  destruct (retrieve_thoth_sli_from_ceph _ _); [|done]. simpl.
  destruct (read_csv _ _); done.
Qed.

Lemma report_column_empty (cols : list string)
    (hi : gmap string html_input) (c : string) :
  is_ok (report_column {| df_columns := cols; df_rows := [] |} hi c) = false.
Proof.
  unfold report_column.
  destruct (getitem hi c); [|done]. simpl.
  unfold df_getitem. simpl. by destruct (list_find _ cols) as [[i x]|].
Qed.

Lemma report_column_sets (df : DataFrame)
    (hi hi' : gmap string html_input) (c : string) :
  report_column df hi c = Ok hi' →
  ∃ h diff, hi !! c = Some h ∧
            hi' = <[c := set_change h (change_of diff)]> hi.
Proof.
  unfold report_column, getitem. intros H.
  destruct (hi !! c) as [h|]; [|done]. simpl in H.
  destruct (df_getitem df c); [|done]. simpl in H.
  destruct (rsub_series _ _); [|done]. simpl in H.
  destruct (series_getitem0 _) as [diff|]; [|done]. simpl in H.
  injection H as <-. by exists h, diff.
Qed.

(** C4, as the code has it.  The report step has no recovery path for
    the prior snapshot: when retrieving it raises, when parsing it
    raises, or when it holds no row, the step raises and returns no
    report.  When it does return, every quantity carries a change
    field. *)
Theorem report_sli_needs_prior_snapshot
    (sli : gmap string sample) (ceph_sli : CephStore) :
  (match prior_rows ceph_sli with
   | Ok (_ :: _) => False
   | _ => True
   end →
   is_ok (report sli ceph_sli) = false) ∧
  (∀ html_inputs c,
     report_inputs sli ceph_sli = Ok html_inputs →
     c ∈ sli_columns →
     ∃ h ch, html_inputs !! c = Some h ∧ change h = Some ch).
Proof.
  split.
  - intros Hprior. unfold report, _report_sli.
    fold report_inputs. rewrite report_inputs_eq.
    destruct (_evaluate_sli sli) as [hi0|]; [|done]. simpl.
    destruct (prior_rows ceph_sli) as [[|row rows]|]; [|done..]. simpl.
    pose proof (report_column_empty (total_columns default_columns) hi0
                  "avg_percentage_successfull_request") as Hempty.
    by destruct (report_column _ hi0 _).
  - intros hi c Hrep Hc. rewrite report_inputs_eq in Hrep.
    destruct (_evaluate_sli sli) as [hi0|]; [|done]. simpl in Hrep.
    destruct (prior_rows ceph_sli) as [rows|]; [|done]. simpl in Hrep.
    destruct (report_column _ hi0 _) as [hi1|] eqn:H1; [|done]. simpl in Hrep.
    apply report_column_sets in H1 as (h1 & d1 & _ & ->).
    apply report_column_sets in Hrep as (h2 & d2 & _ & ->).
    unfold sli_columns in Hc. simpl in Hc.
    rewrite !elem_of_cons, elem_of_nil in Hc.
    destruct Hc as [->|[->|[]]].
    + do 2 eexists. rewrite lookup_insert_ne by done.
      rewrite lookup_insert_eq. done.
    + do 2 eexists. rewrite lookup_insert_eq. done.
Qed.

End ReportProperties.

Lemma report_sli_needs_prior_snapshot_witness :
  is_ok (demo_report (sli_of (Val (Fin 100)) (Val (Fin 95)) (Val (Fin 1))) ∅)
    = false.
Proof.
  apply (report_sli_needs_prior_snapshot ["datetime"; "timestamp"] "2020-06-01"
           blob_store retrieve_blob (read_one_csv week_text week_row)
           (λ _, "<report>")
           (sli_of (Val (Fin 100)) (Val (Fin 95)) (Val (Fin 1))) ∅).
  exact I.
Defined.

(** C4 fails as stated: with no prior snapshot in the store the report
    step raises the store's error and returns no report. *)
Lemma report_sli_missing_snapshot_raises :
  demo_report (sli_of (Val (Fin 100)) (Val (Fin 95)) (Val (Fin 1))) ∅
    = Raise (SourceError "NoSuchKey") ∧
  ¬ ∃ document,
      demo_report (sli_of (Val (Fin 100)) (Val (Fin 95)) (Val (Fin 1))) ∅
        = Ok document.
Proof.
  assert (demo_report (sli_of (Val (Fin 100)) (Val (Fin 95)) (Val (Fin 1))) ∅
          = Raise (SourceError "NoSuchKey")) as H by (by vm_compute).
  split; [exact H|]. intros [document Hdoc]. congruence.
Qed.

(** ** Collection *)

Section FoldInsert.

Context {A B : Type} (f : A → B).

Let step : gmap string B → string * A → gmap string B :=
  λ m '(k, v), <[k := f v]> m.

Lemma foldl_insert_delete (k : string) (l : list (string * A))
    (m0 : gmap string B) :
  foldl step (delete k m0) (filter (λ kv, kv.1 ≠ k) l)
    = delete k (foldl step m0 l).
Proof.
  revert m0. induction l as [|[k' v] l IH]; intros m0; [done|].
  simpl. rewrite <- IH. destruct (decide (k' = k)) as [->|Hne].
  - rewrite filter_cons_False by (simpl; tauto).
    by rewrite delete_insert_eq.
  - rewrite filter_cons_True by done. simpl.
    by rewrite delete_insert_ne.
Qed.

Lemma foldl_insert_notin (k : string) (l : list (string * A))
    (m0 : gmap string B) :
  k ∉ l.*1 → foldl step m0 l !! k = m0 !! k.
Proof.
  revert m0. induction l as [|[k' v] l IH]; intros m0 Hk; [done|].
  simpl in *. apply not_elem_of_cons in Hk as [Hne Hk].
  rewrite IH by done. by rewrite lookup_insert_ne.
Qed.

Lemma foldl_insert_in (k : string) (v : A) (l : list (string * A))
    (m0 : gmap string B) :
  NoDup l.*1 → (k, v) ∈ l → foldl step m0 l !! k = Some (f v).
Proof.
  revert m0. induction l as [|[k' v'] l IH]; intros m0 Hnd Hin.
  - by apply elem_of_nil in Hin.
  - simpl in *. apply NoDup_cons in Hnd as [Hnotin Hnd].
    apply elem_of_cons in Hin as [[= -> ->]|Hin].
    + rewrite foldl_insert_notin by done. apply lookup_insert_eq.
    + by apply IH.
Qed.

End FoldInsert.

Section CollectProperties.

Context (_DRY_RUN : bool).
Context (custom_query_range : string → outcome (list range_series)).
Context (custom_query : string → outcome (list instant_sample)).
Context (py_float : string → outcome pyfloat).
Context (manipulate_retrieved_metrics_vector :
           list pyfloat → string → outcome pyfloat).

Let query_result' :=
  query_result _DRY_RUN custom_query_range custom_query py_float
    manipulate_retrieved_metrics_vector.
Let collect_query' :=
  collect_query _DRY_RUN custom_query_range custom_query py_float
    manipulate_retrieved_metrics_vector.
Let collect_queries' :=
  collect_queries _DRY_RUN custom_query_range custom_query py_float
    manipulate_retrieved_metrics_vector.
Let collect_metrics' :=
  collect_metrics _DRY_RUN custom_query_range custom_query py_float
    manipulate_retrieved_metrics_vector.
Abbreviation source_raises :=
  (App.source_raises custom_query_range custom_query).

Lemma collect_query_source_raises (inputs : query_inputs) :
  _DRY_RUN = false → source_raises inputs = true →
  collect_query' inputs = ErrorMetricRetrieval.
Proof.
  intros Hdry Hraise.
  unfold collect_query', collect_query, query_result. rewrite Hdry.
  destruct inputs as [q [|] t|q]; simpl in *.
  - by destruct (custom_query_range q).
  - by destruct (custom_query q).
  - by destruct (custom_query q).
Qed.

Lemma collect_queries_remove (query_name : string)
    (queries : list (string * query_inputs)) :
  collect_queries' (filter (λ kv, kv.1 ≠ query_name) queries)
    = delete query_name (collect_queries' queries).
Proof.
  unfold collect_queries', collect_queries.
  rewrite <- (foldl_insert_delete _ query_name queries ∅).
  by rewrite delete_empty.
Qed.

Lemma collect_metrics_remove_acc (sli_name query_name : string)
    (ctx : list (string * list (string * query_inputs)))
    (m0 : gmap string (gmap string sample)) :
  foldl (λ collected_info '(name, queries),
           <[name := collect_queries' queries]> collected_info)
        (alter (delete query_name) sli_name m0)
        (remove_query sli_name query_name ctx)
    = alter (delete query_name) sli_name
        (foldl (λ collected_info '(name, queries),
                  <[name := collect_queries' queries]> collected_info)
               m0 ctx).
Proof.
  revert m0. induction ctx as [|[name queries] ctx IH]; intros m0; [done|].
  simpl. rewrite <- IH. f_equal.
  destruct (decide (name = sli_name)) as [->|Hne].
  - by rewrite insert_alter_eq, alter_insert_eq, collect_queries_remove.
  - by rewrite alter_insert_ne.
Qed.

Lemma collect_metrics_remove (sli_name query_name : string)
    (ctx : list (string * list (string * query_inputs))) :
  collect_metrics' (remove_query sli_name query_name ctx)
    = alter (delete query_name) sli_name (collect_metrics' ctx).
Proof.
  unfold collect_metrics', collect_metrics.
  fold collect_queries'.
  rewrite <- collect_metrics_remove_acc. by rewrite alter_empty.
Qed.

Lemma collected_at_registered
    (ctx : list (string * list (string * query_inputs)))
    (sli_name query_name : string)
    (queries : list (string * query_inputs)) (inputs : query_inputs) :
  NoDup ctx.*1 → NoDup queries.*1 →
  (sli_name, queries) ∈ ctx → (query_name, inputs) ∈ queries →
  collected_at (collect_metrics' ctx) sli_name query_name
    = Some (collect_query' inputs).
Proof.
  intros Hctx Hqs Hin Hq. unfold collected_at, collect_metrics', collect_metrics.
  rewrite (foldl_insert_in _ sli_name queries ctx ∅ Hctx Hin). simpl.
  unfold collect_queries.
  by rewrite (foldl_insert_in _ query_name inputs queries ∅ Hqs Hq).
Qed.

Lemma metrics_vector_of_eq (values : list (Z * string)) :
  metrics_vector_of py_float values =
    (parsed ←! traverse py_float values.*2 ;;
     Ok (List.filter (λ v, gt v zero) parsed)).
Proof.
  induction values as [|v values IH]; [done|].
  rewrite fmap_cons. cbn [metrics_vector_of traverse].
  destruct (py_float v.2) as [x|e] eqn:Hx; [|done]. cbn [obind].
  rewrite IH.
  destruct (traverse py_float values.*2) as [parsed|e]; cbn [obind].
  - cbn [List.filter]. by destruct (gt x zero).
  - by destruct (gt x zero).
Qed.

(** C3. An exception of the metric source on one query is caught and
    stored as ["ErrorMetricRetrieval"] for that query alone.
    Collection returns for the whole registry: every other registered
    query whose own call succeeds is collected with its own value, the
    first sample of an instant query read as a float and the reduction
    of the positive samples of a range query, and every other entry is
    what collection yields on the registry without the failing query. *)
Theorem collect_metrics_isolates_failure
    (ctx : list (string * list (string * query_inputs)))
    (sli_name query_name : string)
    (queries : list (string * query_inputs)) (inputs : query_inputs) :
  _DRY_RUN = false →
  NoDup ctx.*1 →
  (∀ name qs, (name, qs) ∈ ctx → NoDup qs.*1) →
  (sli_name, queries) ∈ ctx →
  (query_name, inputs) ∈ queries →
  source_raises inputs = true →
  collected_at (collect_metrics' ctx) sli_name query_name
    = Some ErrorMetricRetrieval ∧
  (∀ name qs q i, (name, qs) ∈ ctx → (q, i) ∈ qs →
     collected_at (collect_metrics' ctx) name q = Some (collect_query' i)) ∧
  (∀ name q, (name, q) ≠ (sli_name, query_name) →
     collected_at (collect_metrics' ctx) name q
     = collected_at
         (collect_metrics' (remove_query sli_name query_name ctx)) name q) ∧
  collected_at (collect_metrics' (remove_query sli_name query_name ctx))
    sli_name query_name = None ∧
  (∀ name qs q i query first others x,
     (name, qs) ∈ ctx → (q, i) ∈ qs →
     (i = QueryStr query ∨ ∃ action, i = QueryDict query false action) →
     custom_query query = Ok (first :: others) →
     py_float (is_value first).2 = Ok x →
     collected_at (collect_metrics' ctx) name q = Some (Val x)) ∧
  (∀ name qs q query action series others parsed result,
     (name, qs) ∈ ctx → (q, QueryDict query true action) ∈ qs →
     custom_query_range query = Ok (series :: others) →
     traverse py_float (rs_values series).*2 = Ok parsed →
     manipulate_retrieved_metrics_vector
       (List.filter (λ v, gt v zero) parsed) action = Ok result →
     collected_at (collect_metrics' ctx) name q = Some (Val result)).
Proof.
  intros Hdry Hctx Hqs Hin Hq Hraise.
  assert (∀ name qs q i, (name, qs) ∈ ctx → (q, i) ∈ qs →
            collected_at (collect_metrics' ctx) name q
            = Some (collect_query' i)) as Hall.
  { intros name qs q i Hn Hi.
    apply (collected_at_registered ctx name q qs i); eauto. }
  split; [|split; [exact Hall|split; [|split; [|split]]]].
  - rewrite (Hall _ _ _ _ Hin Hq).
    by rewrite collect_query_source_raises.
  - intros name q Hne. rewrite collect_metrics_remove. unfold collected_at.
    destruct (decide (name = sli_name)) as [->|Hname].
    + rewrite lookup_alter_eq.
      destruct (collect_metrics' ctx !! sli_name) as [inner|]; [|done].
      simpl. rewrite lookup_delete_ne; [done|]. congruence.
    + by rewrite lookup_alter_ne.
  - rewrite collect_metrics_remove. unfold collected_at.
    rewrite lookup_alter_eq.
    destruct (collect_metrics' ctx !! sli_name) as [inner|]; [|done].
    simpl. apply lookup_delete_eq.
  - intros name qs q i query first others x Hn Hi Hform Hsrc Hx.
    rewrite (Hall _ _ _ _ Hn Hi). f_equal.
    unfold collect_query', collect_query, query_result. rewrite Hdry.
    destruct Hform as [->|[action ->]]; simpl;
      rewrite Hsrc; simpl; by rewrite Hx.
  - intros name qs q query action series others parsed result
      Hn Hi Hsrc Hparsed Hres.
    rewrite (Hall _ _ _ _ Hn Hi). f_equal.
    unfold collect_query', collect_query, query_result. rewrite Hdry. simpl.
    rewrite Hsrc. simpl. rewrite metrics_vector_of_eq, Hparsed. simpl.
    by rewrite Hres.
Qed.

(** C8. On a range query the values of the returned series are read as
    floats, those that are not [> 0] are dropped, and the reduction is
    applied to what is left: a sample is in the reduced vector exactly
    when it is in the series and is [> 0]. *)
Theorem range_query_reduces_positive_samples
    (query action : string) (series : range_series)
    (others : list range_series) (parsed : list pyfloat) :
  _DRY_RUN = false →
  custom_query_range query = Ok (series :: others) →
  traverse py_float (rs_values series).*2 = Ok parsed →
  let metrics_vector := List.filter (λ v, gt v zero) parsed in
  query_result' true query action
    = manipulate_retrieved_metrics_vector metrics_vector action ∧
  collect_query' (QueryDict query true action)
    = match manipulate_retrieved_metrics_vector metrics_vector action with
      | Ok result => Val result
      | Raise _ => ErrorMetricRetrieval
      end ∧
  Forall (λ v, gt v zero = true) metrics_vector ∧
  (∀ v, v ∈ metrics_vector ↔ v ∈ parsed ∧ gt v zero = true).
Proof.
  intros Hdry Hsrc Hparsed metrics_vector.
  assert (query_result' true query action
          = manipulate_retrieved_metrics_vector metrics_vector action) as Hres.
  { unfold query_result', query_result. rewrite Hdry. simpl.
    rewrite Hsrc. simpl. rewrite metrics_vector_of_eq, Hparsed. done. }
  split; [exact Hres|]. split; [|split].
  - unfold collect_query', collect_query. fold query_result'.
    by rewrite Hres.
  - apply Forall_forall. intros v Hv.
    apply list_elem_of_In, filter_In in Hv. tauto.
  - intros v. rewrite !list_elem_of_In. unfold metrics_vector.
    rewrite filter_In. tauto.
Qed.

End CollectProperties.

Example demo_collect_total :
  collected_at (demo_collect demo_context) "user_api" "avg_total_request"
    = Some (Val (Fin 2)).
Proof. vm_compute. reflexivity. Qed.

Lemma collect_metrics_isolates_failure_witness :
  collected_at (demo_collect demo_context) "user_api" "avg_successfull_request"
    = Some ErrorMetricRetrieval ∧
  collected_at (demo_collect demo_context) "user_api" "avg_up_time"
    = collected_at
        (demo_collect (remove_query "user_api" "avg_successfull_request" demo_context))
        "user_api" "avg_up_time" ∧
  collected_at (demo_collect demo_context) "user_api" "avg_up_time"
    = Some (Val (Fin 1)) ∧
  collected_at (demo_collect demo_context) "user_api" "avg_total_request"
    = Some (Val (Fin 2)).
Proof.
  destruct (collect_metrics_isolates_failure
              false demo_query_range demo_query demo_float demo_count
              demo_context "user_api" "avg_successfull_request"
              [ ("avg_total_request", QueryDict "sum(total)" true "average");
                ("avg_successfull_request", QueryDict "sum(ok)" true "average");
                ("avg_up_time", QueryStr "up") ]
              (QueryDict "sum(ok)" true "average"))
    as (Hfail & _ & Hother & _ & Hinstant & Hrange).
  - reflexivity.
  - apply (bool_decide_unpack _). by vm_compute.
  - intros name qs Hin. apply list_elem_of_singleton in Hin.
    injection Hin as -> ->. apply (bool_decide_unpack _). by vm_compute.
  - apply list_elem_of_here.
  - apply list_elem_of_further, list_elem_of_here.
  - reflexivity.
  - split; [exact Hfail|]. split; [apply Hother; congruence|]. split.
    + apply (Hinstant "user_api"
               [ ("avg_total_request", QueryDict "sum(total)" true "average");
                 ("avg_successfull_request", QueryDict "sum(ok)" true "average");
                 ("avg_up_time", QueryStr "up") ]
               "avg_up_time" (QueryStr "up") "up"
               {| is_value := (0%Z, "1") |} [] (Fin 1)).
      * apply list_elem_of_here.
      * apply list_elem_of_further, list_elem_of_further, list_elem_of_here.
      * left. reflexivity.
      * reflexivity.
      * reflexivity.
    + apply (Hrange "user_api"
               [ ("avg_total_request", QueryDict "sum(total)" true "average");
                 ("avg_successfull_request", QueryDict "sum(ok)" true "average");
                 ("avg_up_time", QueryStr "up") ]
               "avg_total_request" "sum(total)" "average"
               {| rs_values := [(0%Z, "1"); (60%Z, "-2"); (120%Z, "0"); (180%Z, "3")] |}
               [] [Fin 1; Fin (-2); Fin 0; Fin 3] (Fin 2)).
      * apply list_elem_of_here.
      * apply list_elem_of_here.
      * reflexivity.
      * reflexivity.
      * reflexivity.
Defined.

Lemma range_query_reduces_positive_samples_witness :
  collect_query false demo_query_range demo_query demo_float demo_count
    (QueryDict "sum(total)" true "average")
  = match demo_count [Fin 1; Fin 3] "average" with
    | Ok result => Val result
    | Raise _ => ErrorMetricRetrieval
    end.
Proof.
  destruct (range_query_reduces_positive_samples
              false demo_query_range demo_query demo_float demo_count
              "sum(total)" "average"
              {| rs_values := [(0%Z, "1"); (60%Z, "-2"); (120%Z, "0"); (180%Z, "3")] |}
              [] [Fin 1; Fin (-2); Fin 0; Fin 3])
    as (_ & Hcollect & _); [reflexivity..|].
  exact Hcollect.
Defined.

(** ** Persistence *)

Section StoreProperties.

Context (end_time_date : string) (end_time_epoch : Z).
Context (df_methods :
           gmap string (gmap string sample → string → Z
                        → outcome (list (string * cell)))).
Context (report_sli_context_columns : gmap string (list string)).

Let store_metric_class' :=
  store_metric_class end_time_date end_time_epoch df_methods
    report_sli_context_columns.
Let store_loop' :=
  store_loop end_time_date end_time_epoch df_methods
    report_sli_context_columns.
Let store' :=
  store_sli_periodic_metrics_to_ceph end_time_date end_time_epoch df_methods
    report_sli_context_columns.
Abbreviation computed_row :=
  (App.computed_row end_time_date end_time_epoch df_methods).
Abbreviation written_as_declared :=
  (App.written_as_declared report_sli_context_columns).

Lemma store_metric_class_eq (metric_class : string)
    (metrics : gmap string sample) :
  store_metric_class' metric_class metrics =
    (row ←! computed_row metric_class metrics ;;
     csv_columns ←! getitem report_sli_context_columns metric_class ;;
     if bool_decide (row.*1 ≠ csv_columns) then
       Raise (Exception "Data stored on Ceph should be stored with correct columns")
     else
       let metrics_df := {| df_columns := row.*1; df_rows := [row.*2] |} in
       let ceph_path :=
         metric_class ++ "/" ++ metric_class ++ "-" ++ end_time_date ++ ".csv" in
       Ok [ {| sc_is_public := false; sc_metric_class := metric_class;
               sc_metrics_df := metrics_df; sc_ceph_path := ceph_path |};
            {| sc_is_public := true; sc_metric_class := metric_class;
               sc_metrics_df := metrics_df; sc_ceph_path := ceph_path |} ]).
Proof.
  unfold store_metric_class', store_metric_class, App.computed_row.
  destruct (getitem df_methods metric_class) as [f|]; [|done]. simpl.
  by destruct (f metrics end_time_date end_time_epoch).
Qed.

Lemma store_metric_class_calls (metric_class : string)
    (metrics : gmap string sample) (made : list store_call) :
  store_metric_class' metric_class metrics = Ok made →
  Forall written_as_declared made ∧
  sc_metric_class <$> made = [metric_class; metric_class] ∧
  sc_is_public <$> made = [false; true] ∧
  ∃ row, computed_row metric_class metrics = Ok row ∧
         report_sli_context_columns !! metric_class = Some row.*1.
Proof.
  rewrite store_metric_class_eq. intros H.
  destruct (computed_row metric_class metrics) as [row|]; [|done].
  simpl in H. unfold getitem in H.
  destruct (report_sli_context_columns !! metric_class) as [csv|] eqn:Hcsv;
    [|done].
  simpl in H. case_bool_decide as Hcols; [done|].
  injection H as <-. subst csv.
  split; [|split; [done|split; [done|]]].
  - by repeat constructor.
  - by exists row.
Qed.

Lemma store_metric_class_mismatch (metric_class : string)
    (metrics : gmap string sample) (row : list (string * cell))
    (csv_columns : list string) :
  computed_row metric_class metrics = Ok row →
  report_sli_context_columns !! metric_class = Some csv_columns →
  row.*1 ≠ csv_columns →
  is_ok (store_metric_class' metric_class metrics) = false.
Proof.
  intros Hrow Hcsv Hne. rewrite store_metric_class_eq, Hrow. simpl.
  unfold getitem. rewrite Hcsv. simpl. by rewrite bool_decide_true.
Qed.

Lemma store_loop_calls (periodic_metrics : list (string * gmap string sample))
    (calls : list store_call) :
  Forall written_as_declared calls →
  Forall written_as_declared (store_loop' periodic_metrics calls).1.
Proof.
  revert calls.
  induction periodic_metrics as [|[metric_class metrics] rest IH];
    intros calls Hcalls; [done|].
  simpl. fold store_metric_class'.
  destruct (store_metric_class' metric_class metrics) as [made|] eqn:Hmade;
    [|done].
  apply IH. apply Forall_app. split; [done|].
  by apply store_metric_class_calls in Hmade as [? _].
Qed.

Lemma store_loop_ok (periodic_metrics : list (string * gmap string sample))
    (calls : list store_call) (metric_class : string)
    (metrics : gmap string sample) :
  is_ok (store_loop' periodic_metrics calls).2 = true →
  (metric_class, metrics) ∈ periodic_metrics →
  is_ok (store_metric_class' metric_class metrics) = true.
Proof.
  revert calls.
  induction periodic_metrics as [|[mc m] rest IH]; intros calls Hok Hin.
  - by apply elem_of_nil in Hin.
  - simpl in Hok. fold store_metric_class' in Hok.
    apply elem_of_cons in Hin as [[= -> ->]|Hin].
    + by destruct (store_metric_class' mc m).
    + destruct (store_metric_class' mc m); [|done]. by eapply IH.
Qed.

Lemma store_loop_all_match
    (periodic_metrics : list (string * gmap string sample))
    (calls : list store_call) :
  (∀ metric_class metrics, (metric_class, metrics) ∈ periodic_metrics →
     ∃ row, computed_row metric_class metrics = Ok row ∧
            report_sli_context_columns !! metric_class = Some row.*1) →
  let out := store_loop' periodic_metrics calls in
  out.2 = Ok tt ∧
  sc_metric_class <$> out.1
    = ((sc_metric_class <$> calls)
         ++ flat_map (λ metric_class, [metric_class; metric_class])
              periodic_metrics.*1)%list ∧
  sc_is_public <$> out.1
    = ((sc_is_public <$> calls)
         ++ flat_map (λ _, [false; true]) periodic_metrics)%list.
Proof.
  revert calls.
  induction periodic_metrics as [|[mc m] rest IH]; intros calls Hall.
  - simpl. by rewrite !app_nil_r.
  - destruct (Hall mc m) as (row & Hrow & Hcsv); [apply list_elem_of_here|].
    simpl. fold store_metric_class'.
    rewrite store_metric_class_eq, Hrow. simpl.
    unfold getitem. rewrite Hcsv. simpl.
    rewrite bool_decide_false by (intros Hne; by apply Hne).
    fold store_loop'.
    match goal with
    | |- context [store_loop' rest ?c] =>
        destruct (IH c) as (Hres & Hcls & Hpub)
    end.
    { intros mc' m' Hin. apply Hall. by apply list_elem_of_further. }
    split; [exact Hres|]. split.
    + rewrite Hcls, fmap_app, <- app_assoc. done.
    + rewrite Hpub, fmap_app, <- app_assoc. done.
Qed.


End StoreProperties.


(** ** Publishing *)

Lemma push_metric_data_lookup (sli_type : string)
    (metric_data : gmap string sample) (gauge : gmap (string * string) pyfloat)
    (s m : string) :
  push_metric_data sli_type metric_data gauge !! (s, m) =
    if decide (sli_type = s) then
      match metric_data !! m with
      | Some (Val v) => Some v
      | _ => gauge !! (s, m)
      end
    else gauge !! (s, m).
Proof.
  unfold push_metric_data. revert m.
  apply (map_fold_weak_ind
           (λ r md, ∀ m, r !! (s, m) =
              if decide (sli_type = s) then
                match md !! m with
                | Some (Val v) => Some v
                | _ => gauge !! (s, m)
                end
              else gauge !! (s, m))).
  - intros m. rewrite lookup_empty. by destruct (decide _).
  - intros i x md r Hi IH m.
    destruct (decide (sli_type = s)) as [->|Hs].
    + destruct (decide (i = m)) as [->|Him].
      * rewrite lookup_insert_eq. destruct x as [v|].
        -- apply lookup_insert_eq.
        -- rewrite IH. by rewrite Hi.
      * rewrite (lookup_insert_ne md) by done.
        specialize (IH m).
        destruct x as [v|]; [|done].
        rewrite lookup_insert_ne by congruence. done.
    + specialize (IH m).
      destruct x as [v|]; [|done].
      rewrite lookup_insert_ne by congruence. done.
Qed.

(** The gauge after publishing, at every label pair. *)
Lemma push_lookup
    (periodic_metrics : gmap string (gmap string sample))
    (thoth_weekly_sli : gmap (string * string) pyfloat)
    (sli_type metric_name : string) :
  push_thoth_sli_periodic_metrics periodic_metrics thoth_weekly_sli
    !! (sli_type, metric_name)
  = match collected_at periodic_metrics sli_type metric_name with
    | Some (Val weekly_value_metric) => Some weekly_value_metric
    | Some ErrorMetricRetrieval | None =>
        thoth_weekly_sli !! (sli_type, metric_name)
    end.
Proof.
  unfold push_thoth_sli_periodic_metrics, collected_at.
  revert sli_type metric_name.
  apply (map_fold_weak_ind
           (λ r pm, ∀ s m, r !! (s, m) =
              match pm !! s ≫= (.!! m) with
              | Some (Val v) => Some v
              | _ => thoth_weekly_sli !! (s, m)
              end)).
  - intros s m. by rewrite lookup_empty.
  - intros i md pm r Hi IH s m.
    rewrite push_metric_data_lookup.
    destruct (decide (i = s)) as [->|His].
    + rewrite lookup_insert_eq. simpl.
      specialize (IH s m). rewrite Hi in IH. simpl in IH.
      destruct (md !! m) as [[v|]|]; done.
    + rewrite lookup_insert_ne by done. apply IH.
Qed.

Example push_skips_marker :
  push_thoth_sli_periodic_metrics
    {["user_api" := sli_of ErrorMetricRetrieval (Val (Fin 95)) (Val (Fin 1))]} ∅
  = {[("user_api", "avg_successfull_request") := Fin 95;
      ("user_api", "avg_up_time") := Fin 1]}.
Proof.
  apply map_eq. intros [s m]. rewrite push_lookup.
  unfold collected_at.
  destruct (decide (s = "user_api")) as [->|Hs].
  - rewrite lookup_singleton_eq. simpl. unfold sli_of.
    destruct (decide (m = "avg_total_request")) as [->|H1]; [done|].
    rewrite lookup_insert_ne by done.
    destruct (decide (m = "avg_successfull_request")) as [->|H2]; [done|].
    rewrite lookup_insert_ne by done.
    destruct (decide (m = "avg_up_time")) as [->|H3]; [done|].
    rewrite lookup_insert_ne by done. rewrite lookup_empty.
    rewrite lookup_empty.
    rewrite lookup_insert_ne by congruence.
    rewrite lookup_singleton_ne by congruence. done.
  - rewrite lookup_singleton_ne by done. simpl. rewrite lookup_empty.
    rewrite lookup_insert_ne by congruence.
    rewrite lookup_singleton_ne by congruence. done.
Qed.

(** C9, as the code has it.  The only value publishing skips is the
    string marker ["ErrorMetricRetrieval"]: for an entry holding it
    nothing is set, the gauge of its label pair is what it was before,
    so no 0 is published in its place.  For every entry holding a float,
    a NaN included, the gauge of its label pair is set to that float. *)
Theorem push_skips_unavailable
    (periodic_metrics : gmap string (gmap string sample))
    (thoth_weekly_sli : gmap (string * string) pyfloat)
    (sli_type metric_name : string) (metric_data : gmap string sample)
    (weekly_value_metric : sample) :
  periodic_metrics !! sli_type = Some metric_data →
  metric_data !! metric_name = Some weekly_value_metric →
  push_thoth_sli_periodic_metrics periodic_metrics thoth_weekly_sli
    !! (sli_type, metric_name)
  = match weekly_value_metric with
    | Val v => Some v
    | ErrorMetricRetrieval => thoth_weekly_sli !! (sli_type, metric_name)
    end.
Proof.
  intros Hsli Hmetric. rewrite push_lookup. unfold collected_at.
  rewrite Hsli. simpl. by rewrite Hmetric.
Qed.

Lemma push_skips_unavailable_witness :
  push_thoth_sli_periodic_metrics
    {["user_api" := sli_of ErrorMetricRetrieval (Val (Fin 95)) (Val (Fin 1))]} ∅
    !! ("user_api", "avg_total_request") = None ∧
  push_thoth_sli_periodic_metrics
    {["user_api" := sli_of ErrorMetricRetrieval (Val (Fin 95)) (Val (Fin 1))]} ∅
    !! ("user_api", "avg_successfull_request") = Some (Fin 95).
Proof.
  split.
  - rewrite (push_skips_unavailable _ ∅ "user_api" "avg_total_request"
               (sli_of ErrorMetricRetrieval (Val (Fin 95)) (Val (Fin 1)))
               ErrorMetricRetrieval); [apply lookup_empty|reflexivity..].
  - apply (push_skips_unavailable _ ∅ "user_api" "avg_successfull_request"
             (sli_of ErrorMetricRetrieval (Val (Fin 95)) (Val (Fin 1)))
             (Val (Fin 95))); reflexivity.
Defined.

(** C9 fails as stated: a collected sample that is the float NaN is
    not skipped, its gauge is set to NaN. *)
Lemma push_publishes_nan_sample :
  ∃ v,
    push_thoth_sli_periodic_metrics
      {["user_api" := sli_of (Val (Fin 100)) (Val (Fin 95)) (Val NaN)]} ∅
      !! ("user_api", "avg_up_time") = Some v ∧
    is_nan v = true.
Proof.
  exists NaN. split; [|reflexivity].
  rewrite push_lookup. unfold collected_at.
  rewrite lookup_singleton_eq. simpl. unfold sli_of.
  rewrite lookup_insert_ne by done. rewrite lookup_insert_ne by done.
  by rewrite lookup_insert_eq.
Qed.

(** * Further properties of the code *)

(** ** The evaluator: keys and NaN *)

Lemma evaluate_missing_total (sli : gmap string sample) :
  sli !! "avg_total_request" = None →
  _evaluate_sli sli = Raise (KeyError "avg_total_request").
Proof.
  intros H. unfold _evaluate_sli, evaluate_quantity, percentage_value,
    fill_results, getitem. simpl. by rewrite H.
Qed.

Lemma evaluate_missing_success (sli : gmap string sample) (total : sample) :
  sli !! "avg_total_request" = Some total →
  sli !! "avg_successfull_request" = None →
  _evaluate_sli sli = Raise (KeyError "avg_successfull_request").
Proof.
  intros Ht H. unfold _evaluate_sli, evaluate_quantity, percentage_value,
    fill_results, getitem. simpl. rewrite Ht. simpl. by rewrite H.
Qed.

Lemma evaluate_missing_up (sli : gmap string sample) (total success : sample) :
  sli !! "avg_total_request" = Some total →
  sli !! "avg_successfull_request" = Some success →
  sli !! "avg_up_time" = None →
  _evaluate_sli sli = Raise (KeyError "avg_up_time").
Proof.
  intros Ht Hs H.
  assert (∃ v, percentage_value sli percentage_entry = Ok v) as [v Hv].
  { rewrite (percentage_value_eq sli total success Ht Hs).
    destruct (gt (sample_float total) zero) eqn:E; [|by eexists].
    destruct (div_gt0_ok (sample_float success) _ E) as [r ->]. by eexists. }
  unfold _evaluate_sli, evaluate_quantity. simpl.
  fold percentage_entry. rewrite Hv. simpl.
  unfold plain_value, getitem. by rewrite H.
Qed.

(** X1. A sample mapping that lacks one of the three query keys makes the
    evaluator raise [KeyError] for the first key it misses, in the order
    total, successful, uptime; no partial mapping is returned. *)
Theorem evaluate_sli_missing_key (sli : gmap string sample) :
  (sli !! "avg_total_request" = None →
   _evaluate_sli sli = Raise (KeyError "avg_total_request")) ∧
  (is_Some (sli !! "avg_total_request") →
   sli !! "avg_successfull_request" = None →
   _evaluate_sli sli = Raise (KeyError "avg_successfull_request")) ∧
  (is_Some (sli !! "avg_total_request") →
   is_Some (sli !! "avg_successfull_request") →
   sli !! "avg_up_time" = None →
   _evaluate_sli sli = Raise (KeyError "avg_up_time")).
Proof.
  split; [apply evaluate_missing_total|]. split.
  - intros [t Ht]. by apply evaluate_missing_success with t.
  - intros [t Ht] [s Hs]. by apply evaluate_missing_up with t s.
Qed.

Lemma evaluate_sli_missing_key_witness :
  _evaluate_sli {["avg_total_request" := Val (Fin 100)]}
    = Raise (KeyError "avg_successfull_request").
Proof.
  apply (evaluate_sli_missing_key {["avg_total_request" := Val (Fin 100)]}).
  - by eexists.
  - reflexivity.
Defined.

(** X2. The evaluator reads only the three query keys: two sample
    mappings that agree on them are evaluated alike, whatever other keys
    they hold and also when one of the three is missing. *)
Theorem evaluate_sli_reads_three_keys (sli sli' : gmap string sample) :
  sli !! "avg_total_request" = sli' !! "avg_total_request" →
  sli !! "avg_successfull_request" = sli' !! "avg_successfull_request" →
  sli !! "avg_up_time" = sli' !! "avg_up_time" →
  _evaluate_sli sli = _evaluate_sli sli'.
Proof.
  intros Ht Hs Hu.
  destruct (sli !! "avg_total_request") as [t|] eqn:Et.
  2: { by rewrite !evaluate_missing_total. }
  destruct (sli !! "avg_successfull_request") as [s|] eqn:Es.
  2: { by rewrite (evaluate_missing_success sli t),
                  (evaluate_missing_success sli' t). }
  destruct (sli !! "avg_up_time") as [u|] eqn:Eu.
  2: { by rewrite (evaluate_missing_up sli t s),
                  (evaluate_missing_up sli' t s). }
  destruct (evaluate_sli_eq sli t s u Et Es Eu) as (v & Hv & ->).
  destruct (evaluate_sli_eq sli' t s u) as (v' & Hv' & ->); [done..|].
  rewrite (percentage_value_eq sli t s Et Es) in Hv.
  rewrite (percentage_value_eq sli' t s) in Hv' by done.
  rewrite Hv in Hv'. by injection Hv' as ->.
Qed.

Lemma evaluate_sli_reads_three_keys_witness :
  _evaluate_sli (<["avg_latency" := Val (Fin 7)]>
                   (sli_of (Val (Fin 100)) (Val (Fin 95)) (Val (Fin 1))))
  = _evaluate_sli (sli_of (Val (Fin 100)) (Val (Fin 95)) (Val (Fin 1))).
Proof.
  apply evaluate_sli_reads_three_keys; reflexivity.
Defined.

(** X3. Where unavailability reaches the evaluated values, for samples
    that are finite numbers or the failure marker: the uptime value is
    NaN exactly when its sample is the marker; the ratio value is NaN
    exactly when the successful-requests sample is the marker and the
    total is a positive number.  In every other case the ratio value is
    a number. *)
Theorem evaluate_sli_nan_cases
    (sli : gmap string sample) (total success up : sample) :
  sli !! "avg_total_request" = Some total →
  sli !! "avg_successfull_request" = Some success →
  sli !! "avg_up_time" = Some up →
  marker_or_finite total → marker_or_finite success → marker_or_finite up →
  ∃ html_inputs ratio uptime,
    _evaluate_sli sli = Ok html_inputs ∧
    html_inputs !! "avg_percentage_successfull_request" = Some ratio ∧
    html_inputs !! "avg_up_time" = Some uptime ∧
    (is_nan (value uptime) = true ↔ up = ErrorMetricRetrieval) ∧
    (is_nan (value ratio) = true ↔
       success = ErrorMetricRetrieval ∧
       ∃ t, total = Val (Fin t) ∧ (0 < t)%Q).
Proof.
  intros Ht Hs Hu Ft Fs Fu.
  destruct (evaluate_sli_eq sli total success up Ht Hs Hu) as (v & Hv & ->).
  rewrite (percentage_value_eq sli total success Ht Hs) in Hv.
  do 3 eexists. split; [reflexivity|]. split.
  { rewrite lookup_insert_ne by done. apply lookup_insert_eq. }
  split; [apply lookup_insert_eq|]. simpl. split.
  - destruct up as [[u| | |]|]; try done.
  - destruct total as [[t| | |]|]; try done.
    + simpl in Hv. destruct (Qltb 0 t) eqn:Hpos.
      * apply Qltb_true in Hpos.
        assert (Qeq_bool t 0 = false) as Hnz.
        { destruct (Qeq_bool t 0) eqn:E; [|done].
          apply Qeq_bool_iff in E. rewrite E in Hpos.
          by apply Qlt_irrefl in Hpos. }
        destruct success as [[s| | |]|]; try done; simpl in Hv;
          rewrite Hnz in Hv; simpl in Hv; injection Hv as <-; simpl.
        -- split; [done|]. by intros [? _].
        -- split; [|done]. intros _. split; [done|]. by exists t.
      * apply Qltb_false in Hpos. simpl in Hv. injection Hv as <-. simpl.
        split; [done|]. intros [_ (t' & [= <-] & Hpos')].
        by apply Qlt_not_le in Hpos'.
    + simpl in Hv. injection Hv as <-. simpl.
      split; [done|]. by intros [_ (t' & ? & _)].
Qed.

Lemma evaluate_sli_nan_cases_witness :
  ∃ html_inputs ratio,
    _evaluate_sli (sli_of (Val (Fin 100)) ErrorMetricRetrieval (Val (Fin 1)))
      = Ok html_inputs ∧
    html_inputs !! "avg_percentage_successfull_request" = Some ratio ∧
    is_nan (value ratio) = true.
Proof.
  destruct (evaluate_sli_nan_cases
              (sli_of (Val (Fin 100)) ErrorMetricRetrieval (Val (Fin 1)))
              (Val (Fin 100)) ErrorMetricRetrieval (Val (Fin 1)))
    as (hi & ratio & uptime & Heval & Hratio & _ & _ & Hnan);
    [reflexivity..|exact I|exact I|exact I|].
  exists hi, ratio. split; [exact Heval|]. split; [exact Hratio|].
  apply Hnan. split; [reflexivity|]. exists 100%Q. split; [reflexivity|].
  by vm_compute.
Defined.

(** ** The report step: what it keeps and what it adds *)

Lemma traverse_head {A B} (f : A → outcome B) (a : A) (l : list A)
    (b : B) (bs : list B) :
  traverse f (a :: l) = Ok (b :: bs) → f a = Ok b.
Proof.
  simpl. destruct (f a); [|done]. simpl.
  destruct (traverse f l); [|done]. simpl. congruence.
Qed.

Lemma rsub_series_type_error (x : pyfloat) (series : list cell) :
  (∃ c, c ∈ series ∧ ¬ numeric c) →
  rsub_series x series = Raise TypeError.
Proof.
  unfold rsub_series. induction series as [|c series IH]; intros (c' & Hin & Hc).
  - by apply elem_of_nil in Hin.
  - simpl. destruct c as [y|s]; [|done]. simpl.
    rewrite IH; [done|]. exists c'. split; [|done].
    apply elem_of_cons in Hin as [->|Hin]; [by destruct Hc|done].
Qed.

Lemma rsub_series_numeric (x : pyfloat) (series : list cell) :
  Forall numeric series →
  rsub_series x series
    = Ok ((λ c, match c with CNum y => sub x y | CStr _ => NaN end) <$> series).
Proof.
  unfold rsub_series. induction 1 as [|c series Hc _ IH]; [done|].
  simpl. destruct c as [y|s]; [|done]. simpl. by rewrite IH.
Qed.

Lemma df_getitem_sli_column (default_columns : list string)
    (rows : list (list cell)) (c : string) (k : nat) :
  c ∉ default_columns →
  list_find (λ x, x = c) sli_columns = Some (k, c) →
  df_getitem {| df_columns := total_columns default_columns; df_rows := rows |} c
    = Ok (cell_at (k + length default_columns) <$> rows).
Proof.
  intros Hnotin Hfind. unfold df_getitem, total_columns. simpl.
  rewrite list_find_app_r.
  - rewrite Hfind. done.
  - apply list_find_None, Forall_forall. intros x Hx ->. done.
Qed.

Lemma evaluate_sli_keys (sli : gmap string sample)
    (evaluated : gmap string html_input) (c : string) :
  _evaluate_sli sli = Ok evaluated →
  is_Some (evaluated !! c) →
  c = "avg_percentage_successfull_request" ∨ c = "avg_up_time".
Proof.
  intros Hev Hc.
  destruct (sli !! "avg_total_request") as [t|] eqn:Et.
  2: { by rewrite evaluate_missing_total in Hev. }
  destruct (sli !! "avg_successfull_request") as [s|] eqn:Es.
  2: { by rewrite (evaluate_missing_success sli t) in Hev. }
  destruct (sli !! "avg_up_time") as [u|] eqn:Eu.
  2: { by rewrite (evaluate_missing_up sli t s) in Hev. }
  destruct (evaluate_sli_eq sli t s u Et Es Eu) as (v & _ & Heq).
  rewrite Heq in Hev. injection Hev as <-.
  destruct (decide (c = "avg_up_time")) as [->|Hne1]; [by right|].
  rewrite lookup_insert_ne in Hc by done.
  destruct (decide (c = "avg_percentage_successfull_request")) as [->|Hne2];
    [by left|].
  rewrite lookup_insert_ne in Hc by done. rewrite lookup_empty in Hc.
  by destruct Hc.
Qed.

Lemma report_column_numeric (default_columns : list string)
    (row : list cell) (rows : list (list cell))
    (hi : gmap string html_input) (c : string) (k : nat)
    (h : html_input) (y : pyfloat) :
  c ∉ default_columns →
  list_find (λ x, x = c) sli_columns = Some (k, c) →
  hi !! c = Some h →
  Forall (λ r, numeric (cell_at (k + length default_columns) r)) (row :: rows) →
  cell_at (k + length default_columns) row = CNum y →
  report_column
    {| df_columns := total_columns default_columns; df_rows := row :: rows |}
    hi c
  = Ok (<[c := set_change h (change_of (sub (value h) y))]> hi).
Proof.
  intros Hnotin Hfind Hh Hnum Hy. unfold report_column, getitem.
  rewrite Hh. cbn [obind].
  rewrite (df_getitem_sli_column default_columns (row :: rows) c k Hnotin Hfind).
  cbn [obind]. rewrite rsub_series_numeric by (by apply Forall_fmap).
  cbn [obind]. rewrite fmap_cons. cbn [series_getitem0 obind].
  by rewrite Hy.
Qed.

Section ReportSteps.

Context (default_columns : list string) (last_week_time : string).
Context (CephStore : Type).
Context (retrieve_thoth_sli_from_ceph : CephStore → string → outcome string).
Context (read_csv : string → list string → outcome (list (list cell))).

Let report_inputs :=
  _report_sli_inputs default_columns last_week_time CephStore
    retrieve_thoth_sli_from_ceph read_csv.
Abbreviation prior_rows' :=
  (UserApi.prior_rows default_columns last_week_time CephStore
     retrieve_thoth_sli_from_ceph read_csv).

Lemma report_column_diff (df : DataFrame)
    (hi hi' : gmap string html_input) (c : string) :
  report_column df hi c = Ok hi' →
  ∃ h y column,
    hi !! c = Some h ∧
    df_getitem df c = Ok (CNum y :: column) ∧
    hi' = <[c := set_change h (change_of (sub (value h) y))]> hi.
Proof.
  unfold report_column, getitem. intros H.
  destruct (hi !! c) as [h|]; [|done]. simpl in H.
  destruct (df_getitem df c) as [column|]; [|done]. simpl in H.
  destruct (rsub_series _ column) as [diffs|] eqn:Hsub; [|done]. simpl in H.
  destruct diffs as [|diff diffs]; [done|]. simpl in H. injection H as <-.
  destruct column as [|cell column]; [done|].
  unfold rsub_series in Hsub.
  apply traverse_head in Hsub. destruct cell as [y|]; [|done].
  injection Hsub as <-. by exists h, y, column.
Qed.

Lemma report_inputs_two_steps (sli : gmap string sample) (ceph_sli : CephStore)
    (hi : gmap string html_input) :
  report_inputs sli ceph_sli = Ok hi →
  ∃ hi0 rows ratio uptime y1 y2 col1 col2,
    _evaluate_sli sli = Ok hi0 ∧
    prior_rows' ceph_sli = Ok rows ∧
    hi0 !! "avg_percentage_successfull_request" = Some ratio ∧
    hi0 !! "avg_up_time" = Some uptime ∧
    df_getitem {| df_columns := total_columns default_columns; df_rows := rows |}
      "avg_percentage_successfull_request" = Ok (CNum y1 :: col1) ∧
    df_getitem {| df_columns := total_columns default_columns; df_rows := rows |}
      "avg_up_time" = Ok (CNum y2 :: col2) ∧
    hi = <["avg_up_time" :=
             set_change uptime (change_of (sub (value uptime) y2))]>
           (<["avg_percentage_successfull_request" :=
                set_change ratio (change_of (sub (value ratio) y1))]> hi0).
Proof.
  intros Hrep. unfold report_inputs in Hrep.
  rewrite report_inputs_eq in Hrep.
  destruct (_evaluate_sli sli) as [hi0|]; [|done]. simpl in Hrep.
  destruct (UserApi.prior_rows _ _ _ _ _ ceph_sli) as [rows|]; [|done].
  simpl in Hrep.
  destruct (report_column _ hi0 _) as [hi1|] eqn:H1; [|done]. simpl in Hrep.
  apply report_column_diff in H1 as (h1 & y1 & col1 & Hh1 & Hc1 & ->).
  apply report_column_diff in Hrep as (h2 & y2 & col2 & Hh2 & Hc2 & ->).
  rewrite lookup_insert_ne in Hh2 by done.
  by exists hi0, rows, h1, h2, y1, y2, col1, col2.
Qed.

(** X4. The report step only adds the change field: when it returns,
    the mapping has the keys the evaluator produced, and every quantity
    keeps the value, the name and the measurement unit it was evaluated
    to. *)
Theorem report_sli_keeps_evaluation (sli : gmap string sample)
    (ceph_sli : CephStore) (html_inputs : gmap string html_input) :
  report_inputs sli ceph_sli = Ok html_inputs →
  ∃ evaluated,
    _evaluate_sli sli = Ok evaluated ∧
    dom html_inputs = dom evaluated ∧
    ∀ c h, html_inputs !! c = Some h →
      ∃ h0, evaluated !! c = Some h0 ∧
            value h = value h0 ∧ name h = name h0 ∧
            measurement_unit h = measurement_unit h0.
Proof.
  intros Hrep.
  apply report_inputs_two_steps in Hrep
    as (hi0 & rows & h1 & h2 & y1 & y2 & c1 & c2 & Hev & _ & Hh1 & Hh2 & _ & _ & ->).
  exists hi0. split; [done|]. split.
  - rewrite dom_insert_lookup_L.
    + by rewrite dom_insert_lookup_L.
    + rewrite lookup_insert_ne by done. by eexists.
  - intros c h Hc.
    destruct (decide (c = "avg_up_time")) as [->|Hne1].
    { rewrite lookup_insert_eq in Hc. injection Hc as <-. by exists h2. }
    rewrite lookup_insert_ne in Hc by done.
    destruct (decide (c = "avg_percentage_successfull_request")) as [->|Hne2].
    { rewrite lookup_insert_eq in Hc. injection Hc as <-. by exists h1. }
    rewrite lookup_insert_ne in Hc by done. by exists h.
Qed.

(** X5. The change is computed against the first row of the prior
    snapshot.  When the quantity columns are not among the default column
    names and every row holds numbers in them, the step returns and the
    change of each quantity is the presentation of its evaluated value
    minus the cell of the first row, read at the position that follows
    the default columns. *)
Theorem report_sli_change_from_first_row (sli : gmap string sample)
    (ceph_sli : CephStore) (evaluated : gmap string html_input)
    (ratio uptime : html_input) (row : list cell) (rows : list (list cell))
    (y1 y2 : pyfloat) :
  "avg_percentage_successfull_request" ∉ default_columns →
  "avg_up_time" ∉ default_columns →
  _evaluate_sli sli = Ok evaluated →
  evaluated !! "avg_percentage_successfull_request" = Some ratio →
  evaluated !! "avg_up_time" = Some uptime →
  prior_rows' ceph_sli = Ok (row :: rows) →
  Forall (λ r, numeric (cell_at (length default_columns) r) ∧
               numeric (cell_at (S (length default_columns)) r)) (row :: rows) →
  cell_at (length default_columns) row = CNum y1 →
  cell_at (S (length default_columns)) row = CNum y2 →
  report_inputs sli ceph_sli =
    Ok (<["avg_up_time" :=
            set_change uptime (change_of (sub (value uptime) y2))]>
          (<["avg_percentage_successfull_request" :=
               set_change ratio (change_of (sub (value ratio) y1))]> evaluated)).
Proof.
  intros Hn1 Hn2 Hev Hratio Huptime Hrows Hnum Hy1 Hy2.
  unfold report_inputs. rewrite report_inputs_eq, Hev. cbn [obind].
  rewrite Hrows. cbn [obind].
  rewrite (report_column_numeric default_columns row rows evaluated
             "avg_percentage_successfull_request" 0 ratio y1);
    [|done|reflexivity|done| |done].
  2: { eapply Forall_impl; [exact Hnum|]. by intros r [? _]. }
  cbn [obind].
  apply (report_column_numeric default_columns row rows _ "avg_up_time" 1);
    [done|reflexivity| | |done].
  - by rewrite lookup_insert_ne.
  - eapply Forall_impl; [exact Hnum|]. by intros r [_ ?].
Qed.

(** X6. A cell of the ratio column that [read_csv] returned as a string
    (a text that is neither a number nor one of the texts it reads as a
    missing value, which are NaN cells), in any row of the prior
    snapshot, makes the report step raise [TypeError]: the subtraction is
    made on the whole column before its first row is taken. *)
Theorem report_sli_string_cell_raises (sli : gmap string sample)
    (ceph_sli : CephStore) (evaluated : gmap string html_input)
    (rows : list (list cell)) (r : list cell) :
  "avg_percentage_successfull_request" ∉ default_columns →
  is_Some (evaluated !! "avg_percentage_successfull_request") →
  _evaluate_sli sli = Ok evaluated →
  prior_rows' ceph_sli = Ok rows →
  r ∈ rows →
  ¬ numeric (cell_at (length default_columns) r) →
  report_inputs sli ceph_sli = Raise TypeError.
Proof.
  intros Hn1 [ratio Hratio] Hev Hrows Hr Hstr.
  unfold report_inputs. rewrite report_inputs_eq, Hev. simpl.
  rewrite Hrows. simpl.
  unfold report_column at 1. unfold getitem. rewrite Hratio. simpl.
  rewrite (df_getitem_sli_column default_columns rows _ 0 Hn1) by reflexivity.
  simpl. rewrite rsub_series_type_error; [done|].
  exists (cell_at (length default_columns) r). split; [|done].
  apply list_elem_of_fmap. by exists r.
Qed.

(** X7. A quantity whose evaluated value is NaN, as for an unavailable
    uptime sample, is reported with the bare NaN as its change, whatever
    the prior snapshot holds: neither sign branch is taken. *)
Theorem report_sli_nan_value_nan_change (sli : gmap string sample)
    (ceph_sli : CephStore) (html_inputs : gmap string html_input)
    (c : string) (h : html_input) :
  report_inputs sli ceph_sli = Ok html_inputs →
  html_inputs !! c = Some h →
  is_nan (value h) = true →
  change h = Some (ChangeNum NaN).
Proof.
  intros Hrep Hc Hnan.
  apply report_inputs_two_steps in Hrep
    as (hi0 & rows & h1 & h2 & y1 & y2 & c1 & c2 & Hev & _ & Hh1 & Hh2 & _ & _ & ->).
  assert (∀ h0 y, is_nan (value h0) = true →
            change (set_change h0 (change_of (sub (value h0) y)))
            = Some (ChangeNum NaN)) as Hset.
  { intros h0 y H0. simpl. by destruct (value h0). }
  destruct (decide (c = "avg_up_time")) as [->|Hne1].
  { rewrite lookup_insert_eq in Hc. injection Hc as <-. by apply Hset. }
  rewrite lookup_insert_ne in Hc by done.
  destruct (decide (c = "avg_percentage_successfull_request")) as [->|Hne2].
  { rewrite lookup_insert_eq in Hc. injection Hc as <-. by apply Hset. }
  rewrite lookup_insert_ne in Hc by done.
  destruct (evaluate_sli_keys sli hi0 c Hev) as [->| ->]; done.
Qed.

End ReportSteps.

Example week_evaluated_eq : _evaluate_sli week_sli = Ok week_evaluated.
Proof. vm_compute. reflexivity. Qed.

Example week_report_eq : demo_report_inputs week_sli week_store = Ok week_report.
Proof. vm_compute. reflexivity. Qed.

Lemma report_sli_keeps_evaluation_witness :
  ∃ evaluated,
    _evaluate_sli week_sli = Ok evaluated ∧
    dom week_report = dom evaluated.
Proof.
  destruct (report_sli_keeps_evaluation ["datetime"; "timestamp"] "2020-06-01"
              blob_store retrieve_blob (read_one_csv week_text week_row)
              week_sli week_store week_report)
    as (evaluated & Hev & Hdom & _); [vm_compute; reflexivity|].
  exists evaluated. split; [exact Hev|exact Hdom].
Defined.

Lemma report_sli_change_from_first_row_witness :
  demo_report_inputs week_sli week_store = Ok week_report.
Proof.
  apply (report_sli_change_from_first_row ["datetime"; "timestamp"] "2020-06-01"
           blob_store retrieve_blob (read_one_csv week_text week_row)
           week_sli week_store week_evaluated
           (mk_input (Fin 90) "Successfull requests User-API (avg)" "%")
           (mk_input NaN "Uptime User-API (avg)" "%")
           week_row [] (Fin 95) (Fin 100)).
  - apply (bool_decide_unpack _); vm_compute; exact I.
  - apply (bool_decide_unpack _); vm_compute; exact I.
  - vm_compute; reflexivity.
  - vm_compute; reflexivity.
  - vm_compute; reflexivity.
  - vm_compute; reflexivity.
  - repeat constructor.
  - reflexivity.
  - reflexivity.
Defined.

Lemma report_sli_string_cell_raises_witness :
  _report_sli_inputs ["datetime"; "timestamp"] "2020-06-01" blob_store
    retrieve_blob (read_one_csv text_week_text text_row) week_sli
    text_week_store
  = Raise TypeError.
Proof.
  apply (report_sli_string_cell_raises ["datetime"; "timestamp"] "2020-06-01"
           blob_store retrieve_blob (read_one_csv text_week_text text_row)
           week_sli text_week_store week_evaluated [text_row] text_row).
  - apply (bool_decide_unpack _); vm_compute; exact I.
  - eexists. vm_compute. reflexivity.
  - vm_compute; reflexivity.
  - vm_compute; reflexivity.
  - apply list_elem_of_here.
  - intros H. exact H.
Defined.

Lemma report_sli_nan_value_nan_change_witness :
  change (set_change (mk_input NaN "Uptime User-API (avg)" "%") (ChangeNum NaN))
    = Some (ChangeNum NaN).
Proof.
  apply (report_sli_nan_value_nan_change ["datetime"; "timestamp"] "2020-06-01"
           blob_store retrieve_blob (read_one_csv week_text week_row)
           week_sli week_store week_report "avg_up_time").
  - vm_compute; reflexivity.
  - vm_compute; reflexivity.
  - reflexivity.
Defined.

(** ** Collection: keys, dry run and failure modes *)

Section FoldInsertKeys.

Context {A B : Type} (f : A → B).

Let step : gmap string B → string * A → gmap string B :=
  λ m '(k, v), <[k := f v]> m.

Lemma foldl_insert_dom (l : list (string * A)) (m0 : gmap string B) :
  dom (foldl step m0 l) = dom m0 ∪ list_to_set l.*1.
Proof.
  revert m0. induction l as [|[k v] l IH]; intros m0.
  - simpl. by rewrite (right_id_L ∅ (∪)).
  - simpl. rewrite IH, dom_insert_L.
    apply set_eq. intros x.
    rewrite !elem_of_union, elem_of_singleton. tauto.
Qed.

Lemma foldl_insert_value (k : string) (b : B) (l : list (string * A))
    (m0 : gmap string B) :
  foldl step m0 l !! k = Some b →
  m0 !! k = Some b ∨ ∃ v, (k, v) ∈ l ∧ b = f v.
Proof.
  revert m0. induction l as [|[k' v'] l IH]; intros m0 H; [by left|].
  simpl in H. apply IH in H as [H|(v & Hin & ->)].
  - destruct (decide (k' = k)) as [->|Hne].
    + rewrite lookup_insert_eq in H. injection H as <-.
      right. exists v'. split; [apply list_elem_of_here|done].
    + rewrite lookup_insert_ne in H by done. by left.
  - right. exists v. split; [by apply list_elem_of_further|done].
Qed.

End FoldInsertKeys.

Section CollectEdges.

Context (custom_query_range : string → outcome (list range_series)).
Context (custom_query : string → outcome (list instant_sample)).
Context (py_float : string → outcome pyfloat).
Context (manipulate_retrieved_metrics_vector :
           list pyfloat → string → outcome pyfloat).

Abbreviation collect_query_in dry :=
  (collect_query dry custom_query_range custom_query py_float
     manipulate_retrieved_metrics_vector).
Abbreviation collect_queries_in dry :=
  (collect_queries dry custom_query_range custom_query py_float
     manipulate_retrieved_metrics_vector).
Abbreviation collect_metrics_in dry :=
  (collect_metrics dry custom_query_range custom_query py_float
     manipulate_retrieved_metrics_vector).

Lemma collected_at_value (dry : bool)
    (ctx : list (string * list (string * query_inputs)))
    (sli_name query_name : string) (v : sample) :
  collected_at (collect_metrics_in dry ctx) sli_name query_name = Some v →
  ∃ inputs, v = collect_query_in dry inputs.
Proof.
  unfold collected_at, collect_metrics. intros H.
  destruct (foldl _ _ ctx !! sli_name) as [inner|] eqn:Hinner; [|done].
  simpl in H.
  apply foldl_insert_value in Hinner as [Hinner|(qs & _ & ->)];
    [by rewrite lookup_empty in Hinner|].
  unfold collect_queries in H.
  apply foldl_insert_value in H as [H|(inputs & _ & ->)];
    [by rewrite lookup_empty in H|].
  by exists inputs.
Qed.

(** X8. The collected mapping has exactly the indicators of the
    registry as keys, and under each indicator exactly the names of its
    queries, whether the queries succeeded or failed. *)
Theorem collect_metrics_keys (dry : bool)
    (ctx : list (string * list (string * query_inputs))) :
  dom (collect_metrics_in dry ctx) = list_to_set ctx.*1 ∧
  (NoDup ctx.*1 →
   ∀ sli_name queries, (sli_name, queries) ∈ ctx →
     ∃ collected,
       collect_metrics_in dry ctx !! sli_name = Some collected ∧
       dom collected = list_to_set queries.*1).
Proof.
  split.
  - unfold collect_metrics. rewrite foldl_insert_dom, dom_empty_L.
    by rewrite (left_id_L ∅ (∪)).
  - intros Hnd sli_name queries Hin. eexists. split.
    + unfold collect_metrics. by apply foldl_insert_in.
    + unfold collect_queries. rewrite foldl_insert_dom, dom_empty_L.
      by rewrite (left_id_L ∅ (∪)).
Qed.

(** X9. In a dry run every collected value is the number 0.0, and the
    metric source is not consulted: the collected mapping is the same
    for every metric source, parser and reduction. *)
Theorem collect_metrics_dry_run
    (ctx : list (string * list (string * query_inputs)))
    (custom_query_range' : string → outcome (list range_series))
    (custom_query' : string → outcome (list instant_sample))
    (py_float' : string → outcome pyfloat)
    (manipulate' : list pyfloat → string → outcome pyfloat) :
  (∀ sli_name query_name v,
     collected_at (collect_metrics_in true ctx) sli_name query_name = Some v →
     v = Val (Fin 0)) ∧
  collect_metrics_in true ctx
    = collect_metrics true custom_query_range' custom_query' py_float'
        manipulate' ctx.
Proof.
  split.
  - intros sli_name query_name v Hv.
    apply collected_at_value in Hv as [inputs ->]. by destruct inputs.
  - unfold collect_metrics. generalize (∅ : gmap string (gmap string sample)).
    induction ctx as [|[name qs] ctx IH]; intros acc; [done|].
    simpl. rewrite IH.
    replace (collect_queries true custom_query_range' custom_query' py_float'
               manipulate' qs)
      with (collect_queries_in true qs); [done|].
    unfold collect_queries. generalize (∅ : gmap string sample).
    induction qs as [|[q i] qs IHq]; intros acc'; [done|].
    simpl. rewrite IHq. by destruct i.
Qed.

End CollectEdges.

Lemma collect_metrics_keys_witness :
  dom (demo_collect demo_context) = ({["user_api"]} : gset string) ∧
  ∃ collected,
    demo_collect demo_context !! "user_api" = Some collected ∧
    dom collected
      = list_to_set ["avg_total_request"; "avg_successfull_request"; "avg_up_time"].
Proof.
  destruct (collect_metrics_keys demo_query_range demo_query demo_float
              demo_count false demo_context) as [Hdom Hinner].
  unfold demo_collect. split.
  - rewrite Hdom. simpl. apply (right_id_L ∅ (∪)).
  - apply (Hinner
             ltac:(apply (bool_decide_unpack _); vm_compute; exact I)
             "user_api"
             [ ("avg_total_request", QueryDict "sum(total)" true "average");
               ("avg_successfull_request", QueryDict "sum(ok)" true "average");
               ("avg_up_time", QueryStr "up") ]).
    apply list_elem_of_here.
Defined.

Lemma collect_metrics_dry_run_witness :
  collect_metrics true demo_query_range demo_query demo_float demo_count
    demo_context
  = collect_metrics true (λ _, Raise (SourceError "down"))
      (λ _, Raise (SourceError "down")) (λ _, Raise ValueError)
      (λ _ _, Raise ZeroDivisionError) demo_context.
Proof.
  apply (collect_metrics_dry_run demo_query_range demo_query demo_float
           demo_count demo_context).
Defined.

Section CollectFailures.

Context (custom_query_range : string → outcome (list range_series)).
Context (custom_query : string → outcome (list instant_sample)).
Context (py_float : string → outcome pyfloat).
Context (manipulate_retrieved_metrics_vector :
           list pyfloat → string → outcome pyfloat).

Abbreviation collect_live :=
  (collect_query false custom_query_range custom_query py_float
     manipulate_retrieved_metrics_vector).

(** X10. An instant query, given as a bare string or as a dictionary
    that does not require a range, collects the first sample of the
    answer read as a float.  An empty answer and a text that is not a
    float give the failure marker, and the action type plays no part. *)
Theorem instant_query_first_sample (query action : string) :
  (custom_query query = Ok [] →
   collect_query false custom_query_range custom_query py_float
     manipulate_retrieved_metrics_vector (QueryStr query)
   = ErrorMetricRetrieval) ∧
  (∀ first others,
     custom_query query = Ok (first :: others) →
     collect_query false custom_query_range custom_query py_float
       manipulate_retrieved_metrics_vector (QueryStr query)
       = match py_float (is_value first).2 with
         | Ok x => Val x
         | Raise _ => ErrorMetricRetrieval
         end) ∧
  collect_query false custom_query_range custom_query py_float
    manipulate_retrieved_metrics_vector (QueryDict query false action)
  = collect_query false custom_query_range custom_query py_float
      manipulate_retrieved_metrics_vector (QueryStr query).
Proof.
  unfold collect_query, query_result. simpl. split; [|split].
  - by intros ->.
  - by intros first others ->.
  - done.
Qed.

(** X11. The ways a range query yields the failure marker besides an
    exception of the metric source: an answer with no series, a value of
    the first series that is not a float (kept or not), and an exception
    of the reduction. *)
Theorem range_query_failure_modes (query action : string) :
  (custom_query_range query = Ok [] →
   collect_live (QueryDict query true action) = ErrorMetricRetrieval) ∧
  (∀ series others e,
     custom_query_range query = Ok (series :: others) →
     traverse py_float (rs_values series).*2 = Raise e →
     collect_live (QueryDict query true action) = ErrorMetricRetrieval) ∧
  (∀ series others parsed e,
     custom_query_range query = Ok (series :: others) →
     traverse py_float (rs_values series).*2 = Ok parsed →
     manipulate_retrieved_metrics_vector
       (List.filter (λ v, gt v zero) parsed) action = Raise e →
     collect_live (QueryDict query true action) = ErrorMetricRetrieval).
Proof.
  unfold collect_query, query_result. simpl. split; [|split].
  - by intros ->.
  - intros series others e -> Hparse. simpl.
    by rewrite metrics_vector_of_eq, Hparse.
  - intros series others parsed e -> Hparse Hred. simpl.
    rewrite metrics_vector_of_eq, Hparse. simpl. by rewrite Hred.
Qed.

(** X12. The value collected for a range query depends on the answer
    only through the positive samples of its first series: two answers
    whose first series hold the same positive samples, in the same
    order, are collected alike, whatever other samples and other series
    they hold. *)
Theorem range_query_depends_on_positive_samples
    (custom_query_range' : string → outcome (list range_series))
    (query action : string)
    (series series' : range_series) (others others' : list range_series)
    (parsed parsed' : list pyfloat) :
  custom_query_range query = Ok (series :: others) →
  custom_query_range' query = Ok (series' :: others') →
  traverse py_float (rs_values series).*2 = Ok parsed →
  traverse py_float (rs_values series').*2 = Ok parsed' →
  List.filter (λ v, gt v zero) parsed = List.filter (λ v, gt v zero) parsed' →
  collect_live (QueryDict query true action)
    = collect_query false custom_query_range' custom_query py_float
        manipulate_retrieved_metrics_vector (QueryDict query true action).
Proof.
  intros Hsrc Hsrc' Hp Hp' Hpos.
  unfold collect_query, query_result. simpl.
  rewrite Hsrc, Hsrc'. simpl.
  rewrite !metrics_vector_of_eq, Hp, Hp'. simpl. by rewrite Hpos.
Qed.

End CollectFailures.

Lemma instant_query_first_sample_witness :
  collect_query false demo_query_range demo_query demo_float demo_count
    (QueryStr "up") = Val (Fin 1).
Proof.
  destruct (instant_query_first_sample demo_query_range demo_query demo_float
              demo_count "up" "average") as (_ & Hfirst & _).
  apply (Hfirst {| is_value := (0%Z, "1") |} []). reflexivity.
Defined.

Lemma range_query_failure_modes_witness :
  collect_query false (λ _, Ok []) demo_query demo_float demo_count
    (QueryDict "sum(total)" true "average") = ErrorMetricRetrieval.
Proof.
  destruct (range_query_failure_modes (λ _, Ok []) demo_query demo_float
              demo_count "sum(total)" "average") as (Hempty & _).
  apply Hempty. reflexivity.
Defined.

Lemma range_query_depends_on_positive_samples_witness :
  collect_query false demo_query_range demo_query demo_float demo_count
    (QueryDict "sum(total)" true "average")
  = collect_query false
      (λ _, Ok [ {| rs_values := [(0%Z, "1"); (60%Z, "3"); (120%Z, "-2")] |};
                 {| rs_values := [(0%Z, "3")] |} ])
      demo_query demo_float demo_count
      (QueryDict "sum(total)" true "average").
Proof.
  apply (range_query_depends_on_positive_samples
           demo_query_range demo_query demo_float demo_count
           (λ _, Ok [ {| rs_values := [(0%Z, "1"); (60%Z, "3"); (120%Z, "-2")] |};
                      {| rs_values := [(0%Z, "3")] |} ])
           "sum(total)" "average"
           {| rs_values := [(0%Z, "1"); (60%Z, "-2"); (120%Z, "0"); (180%Z, "3")] |}
           {| rs_values := [(0%Z, "1"); (60%Z, "3"); (120%Z, "-2")] |}
           [] [ {| rs_values := [(0%Z, "3")] |} ]
           [Fin 1; Fin (-2); Fin 0; Fin 3] [Fin 1; Fin 3; Fin (-2)]);
    reflexivity.
Defined.

(** ** Persistence: where it stops and where it writes *)

Section StoreSteps.

Context (end_time_date : string) (end_time_epoch : Z).
Context (df_methods :
           gmap string (gmap string sample → string → Z
                        → outcome (list (string * cell)))).
Context (report_sli_context_columns : gmap string (list string)).

Abbreviation store_class :=
  (store_metric_class end_time_date end_time_epoch df_methods
     report_sli_context_columns).
Abbreviation store_from :=
  (store_loop end_time_date end_time_epoch df_methods
     report_sli_context_columns).
Abbreviation store_all :=
  (store_sli_periodic_metrics_to_ceph end_time_date end_time_epoch df_methods
     report_sli_context_columns).

Lemma store_loop_app (l1 l2 : list (string * gmap string sample))
    (calls : list store_call) :
  store_from (l1 ++ l2) calls =
    match (store_from l1 calls).2 with
    | Ok _ => store_from l2 (store_from l1 calls).1
    | Raise e => store_from l1 calls
    end.
Proof.
  revert calls. induction l1 as [|[mc m] l1 IH]; intros calls; [done|].
  simpl. destruct (store_class mc m) as [made|e]; [|done]. apply IH.
Qed.


(** X14. The key a stored row is written under is the key the report
    step of the User-API indicator reads when its last-week date is the
    date of that store: both are ["user_api/user_api-<date>.csv"]. *)
Theorem stored_path_is_report_path (metrics : gmap string sample)
    (made : list store_call) (w : store_call) :
  store_class _SLI_NAME metrics = Ok made →
  w ∈ made →
  sc_ceph_path w = sli_path end_time_date.
Proof.
  unfold store_metric_class. intros H Hw.
  destruct (getitem df_methods _SLI_NAME) as [f|]; [|done]. simpl in H.
  destruct (f metrics end_time_date end_time_epoch) as [row|]; [|done].
  simpl in H.
  destruct (getitem report_sli_context_columns _SLI_NAME); [|done]. simpl in H.
  case_bool_decide; [done|]. injection H as <-.
  apply elem_of_cons in Hw as [->|Hw]; [done|].
  apply elem_of_cons in Hw as [->|Hw]; [done|].
  by apply elem_of_nil in Hw.
Qed.

End StoreSteps.

(** ** Publishing: which gauges exist afterwards *)

(** X15. After publishing, a label pair has a gauge exactly when it had
    one before or its collected value is a number: publishing removes no
    gauge and creates none for a failed query. *)
Theorem push_gauges_present
    (periodic_metrics : gmap string (gmap string sample))
    (thoth_weekly_sli : gmap (string * string) pyfloat)
    (sli_type metric_name : string) :
  is_Some (push_thoth_sli_periodic_metrics periodic_metrics thoth_weekly_sli
             !! (sli_type, metric_name))
  ↔ is_Some (thoth_weekly_sli !! (sli_type, metric_name)) ∨
    ∃ v, collected_at periodic_metrics sli_type metric_name = Some (Val v).
Proof.
  rewrite push_lookup.
  destruct (collected_at periodic_metrics sli_type metric_name) as [[v|]|].
  - split; [|by eexists]. intros _. right. by exists v.
  - split; [by left|]. by intros [?|[v ?]].
  - split; [by left|]. by intros [?|[v ?]].
Qed.

(** X16. Publishing the same collected values a second time changes
    nothing. *)
Theorem push_idempotent
    (periodic_metrics : gmap string (gmap string sample))
    (thoth_weekly_sli : gmap (string * string) pyfloat) :
  push_thoth_sli_periodic_metrics periodic_metrics
    (push_thoth_sli_periodic_metrics periodic_metrics thoth_weekly_sli)
  = push_thoth_sli_periodic_metrics periodic_metrics thoth_weekly_sli.
Proof.
  apply map_eq. intros [s m]. rewrite !push_lookup.
  by destruct (collected_at periodic_metrics s m) as [[v|]|].
Qed.

Section CollectThenPush.

Context (custom_query_range : string → outcome (list range_series)).
Context (custom_query : string → outcome (list instant_sample)).
Context (py_float : string → outcome pyfloat).
Context (manipulate_retrieved_metrics_vector :
           list pyfloat → string → outcome pyfloat).

(** X17. Collection followed by publishing, query by query: for a
    registry with distinct indicator names and distinct query names, the
    gauge of a registered query is the value its own call produced, and
    when that call failed the gauge is left as it was. *)
Theorem collect_then_push (dry : bool)
    (ctx : list (string * list (string * query_inputs)))
    (thoth_weekly_sli : gmap (string * string) pyfloat)
    (sli_name query_name : string)
    (queries : list (string * query_inputs)) (inputs : query_inputs) :
  NoDup ctx.*1 → NoDup queries.*1 →
  (sli_name, queries) ∈ ctx → (query_name, inputs) ∈ queries →
  push_thoth_sli_periodic_metrics
    (collect_metrics dry custom_query_range custom_query py_float
       manipulate_retrieved_metrics_vector ctx)
    thoth_weekly_sli !! (sli_name, query_name)
  = match collect_query dry custom_query_range custom_query py_float
            manipulate_retrieved_metrics_vector inputs with
    | Val v => Some v
    | ErrorMetricRetrieval => thoth_weekly_sli !! (sli_name, query_name)
    end.
Proof.
  intros Hctx Hqs Hin Hq. rewrite push_lookup.
  by rewrite (collected_at_registered dry custom_query_range custom_query
                py_float manipulate_retrieved_metrics_vector ctx sli_name
                query_name queries inputs Hctx Hqs Hin Hq).
Qed.

End CollectThenPush.


Lemma stored_path_is_report_path_witness :
  sc_ceph_path (demo_user_api_call true) = sli_path "2020-06-08".
Proof.
  apply (stored_path_is_report_path "2020-06-08" 1591574400
           {["user_api" := demo_df_user_api]} demo_columns week_sli
           [demo_user_api_call false; demo_user_api_call true]).
  - vm_compute. reflexivity.
  - apply list_elem_of_further, list_elem_of_here.
Defined.

Lemma collect_then_push_witness :
  push_thoth_sli_periodic_metrics (demo_collect demo_context) ∅
    !! ("user_api", "avg_successfull_request") = None.
Proof.
  unfold demo_collect.
  rewrite (collect_then_push demo_query_range demo_query demo_float demo_count
             false demo_context ∅ "user_api" "avg_successfull_request"
             [ ("avg_total_request", QueryDict "sum(total)" true "average");
               ("avg_successfull_request", QueryDict "sum(ok)" true "average");
               ("avg_up_time", QueryStr "up") ]
             (QueryDict "sum(ok)" true "average")).
  - apply lookup_empty.
  - apply (bool_decide_unpack _); vm_compute; exact I.
  - apply (bool_decide_unpack _); vm_compute; exact I.
  - apply list_elem_of_here.
  - apply list_elem_of_further, list_elem_of_here.
Defined.

(** ** The User-API queries, collected and evaluated *)

Section UserApiPipeline.

Context (custom_query_range : string → outcome (list range_series)).
Context (custom_query : string → outcome (list instant_sample)).
Context (py_float : string → outcome pyfloat).
Context (manipulate_retrieved_metrics_vector :
           list pyfloat → string → outcome pyfloat).
Context (instance environment interval : string).

Let collected (dry : bool) : gmap string sample :=
  collect_queries dry custom_query_range custom_query py_float
    manipulate_retrieved_metrics_vector
    (_query_sli instance environment interval).

Lemma collected_user_api_keys (dry : bool) :
  ∃ q1 q2 q3,
    collected dry !! "avg_total_request"
      = Some (collect_query dry custom_query_range custom_query py_float
                manipulate_retrieved_metrics_vector
                (QueryDict q1 true "average")) ∧
    collected dry !! "avg_successfull_request"
      = Some (collect_query dry custom_query_range custom_query py_float
                manipulate_retrieved_metrics_vector
                (QueryDict q2 true "average")) ∧
    collected dry !! "avg_up_time"
      = Some (collect_query dry custom_query_range custom_query py_float
                manipulate_retrieved_metrics_vector (QueryStr q3)).
Proof.
  do 3 eexists. unfold collected, collect_queries, _query_sli. cbn [foldl].
  split; [|split].
  - rewrite lookup_insert_ne by done. rewrite lookup_insert_ne by done.
    apply lookup_insert_eq.
  - rewrite lookup_insert_ne by done. apply lookup_insert_eq.
  - apply lookup_insert_eq.
Qed.

(** X18. The queries the User-API indicator declares are the samples its
    evaluator reads: whatever the metric source answers or raises, the
    mapping collected for [_query_sli] is evaluated without a [KeyError],
    to a mapping with the two quantities. *)
Theorem user_api_collect_then_evaluate (dry : bool) :
  ∃ html_inputs,
    _evaluate_sli
      (collect_queries dry custom_query_range custom_query py_float
         manipulate_retrieved_metrics_vector
         (_query_sli instance environment interval))
      = Ok html_inputs ∧
    dom html_inputs =
      ({["avg_percentage_successfull_request"; "avg_up_time"]} : gset string).
Proof.
  destruct (collected_user_api_keys dry) as (q1 & q2 & q3 & Ht & Hs & Hu).
  destruct (evaluate_sli_eq _ _ _ _ Ht Hs Hu) as (v & _ & Heq).
  eexists. split; [exact Heq|].
  rewrite !dom_insert_L, dom_empty_L.
  apply set_eq. intros x.
  rewrite !elem_of_union, !elem_of_singleton, elem_of_empty. tauto.
Qed.

(** X19. In a dry run the User-API indicator is evaluated to 0 for the
    percentage of successful requests and 0 for the uptime, whatever the
    metric source would answer. *)
Theorem user_api_dry_run_evaluates_to_zero :
  ∃ html_inputs ratio uptime,
    _evaluate_sli
      (collect_queries true custom_query_range custom_query py_float
         manipulate_retrieved_metrics_vector
         (_query_sli instance environment interval))
      = Ok html_inputs ∧
    html_inputs !! "avg_percentage_successfull_request" = Some ratio ∧
    html_inputs !! "avg_up_time" = Some uptime ∧
    value ratio = Fin 0 ∧ value uptime = Fin 0.
Proof.
  destruct (collected_user_api_keys true) as (q1 & q2 & q3 & Ht & Hs & Hu).
  destruct (evaluate_sli_eq _ _ _ _ Ht Hs Hu) as (v & Hv & Heq).
  rewrite (percentage_value_eq _ _ _ Ht Hs) in Hv.
  cbn in Hv. injection Hv as <-.
  do 3 eexists. split; [exact Heq|]. split.
  { rewrite lookup_insert_ne by done. apply lookup_insert_eq. }
  split; [apply lookup_insert_eq|]. split; reflexivity.
Qed.

(** X20. With a metric source that raises on every call, the User-API
    indicator is evaluated to the number 0 for the percentage of
    successful requests and to NaN for the uptime. *)
Theorem user_api_source_down :
  (∀ query, is_ok (custom_query_range query) = false) →
  (∀ query, is_ok (custom_query query) = false) →
  ∃ html_inputs ratio uptime,
    _evaluate_sli
      (collect_queries false custom_query_range custom_query py_float
         manipulate_retrieved_metrics_vector
         (_query_sli instance environment interval))
      = Ok html_inputs ∧
    html_inputs !! "avg_percentage_successfull_request" = Some ratio ∧
    html_inputs !! "avg_up_time" = Some uptime ∧
    value ratio = Fin 0 ∧ value uptime = NaN.
Proof.
  intros Hrange Hinstant.
  destruct (collected_user_api_keys false) as (q1 & q2 & q3 & Ht & Hs & Hu).
  assert (∀ inputs,
            collect_query false custom_query_range custom_query py_float
              manipulate_retrieved_metrics_vector inputs
            = ErrorMetricRetrieval) as Hdown.
  { intros inputs. apply collect_query_source_raises; [done|].
    destruct inputs as [q [|] t|q]; simpl.
    - by rewrite Hrange.
    - by rewrite Hinstant.
    - by rewrite Hinstant. }
  rewrite !Hdown in Ht, Hs, Hu.
  destruct (evaluate_sli_eq _ _ _ _ Ht Hs Hu) as (v & Hv & Heq).
  rewrite (percentage_value_eq _ _ _ Ht Hs) in Hv.
  cbn in Hv. injection Hv as <-.
  do 3 eexists. split; [exact Heq|]. split.
  { rewrite lookup_insert_ne by done. apply lookup_insert_eq. }
  split; [apply lookup_insert_eq|]. split; reflexivity.
Qed.

End UserApiPipeline.

Lemma user_api_source_down_witness :
  ∃ html_inputs ratio uptime,
    _evaluate_sli
      (collect_queries false down_range down_instant demo_float demo_count
         (_query_sli "user-api:80" "stage" "7d"))
      = Ok html_inputs ∧
    html_inputs !! "avg_percentage_successfull_request" = Some ratio ∧
    html_inputs !! "avg_up_time" = Some uptime ∧
    value ratio = Fin 0 ∧ value uptime = NaN.
Proof.
  apply (user_api_source_down down_range down_instant demo_float demo_count
           "user-api:80" "stage" "7d").
  - intros query. reflexivity.
  - intros query. reflexivity.
Defined.

(** ** The email *)

Lemma string_append_assoc (a b c : string) : (a ++ b) ++ c = a ++ b ++ c.
Proof.
  induction a as [|x a IH]; [reflexivity|].
  change (String x ((a ++ b) ++ c) = String x (a ++ b ++ c)). by rewrite IH.
Qed.

Lemma string_append_empty (a : string) : a ++ "" = a.
Proof.
  induction a as [|x a IH]; [reflexivity|].
  change (String x (a ++ "") = String x a). by rewrite IH.
Qed.

Section EmailProperties.

Context (_DRY_RUN : bool).
Context (report_start report_style report_intro : string).
Context (report_references report_end : string).
Context (CephStore : Type) (ceph_sli : CephStore).
Context (report_methods :
           gmap string (gmap string sample → CephStore → outcome string)).

Abbreviation sections_from :=
  (email_sections CephStore ceph_sli report_methods).

Lemma email_sections_raise (sli_metrics : list (string * gmap string sample))
    (e : exn) :
  foldl (λ acc '(sli_name, metric_data),
           message ←! acc ;;
           report_method ←! getitem report_methods sli_name ;;
           section ←! report_method metric_data ceph_sli ;;
           Ok (message ++ newline ++ section))
        (Raise e) sli_metrics = Raise e.
Proof. induction sli_metrics as [|[n m] l IH]; [done|]. simpl. apply IH. Qed.

Lemma email_sections_all_ok (sli_metrics : list (string * gmap string sample))
    (sections : list string) (message : string) :
  Forall2 (λ item section,
             ∃ report_method,
               report_methods !! item.1 = Some report_method ∧
               report_method item.2 ceph_sli = Ok section)
          sli_metrics sections →
  sections_from sli_metrics message
    = Ok (message ++ sections_text sections).
Proof.
  intros H. revert message. unfold email_sections.
  induction H as [|[n m] s l ss (f & Hf & Hs) _ IH]; intros message.
  - simpl. by rewrite string_append_empty.
  - simpl in *. unfold getitem. rewrite Hf. simpl. rewrite Hs. simpl.
    rewrite IH. f_equal. by rewrite !string_append_assoc.
Qed.

Lemma email_sections_failure (sli_metrics : list (string * gmap string sample))
    (sli_name : string) (metric_data : gmap string sample) (message : string) :
  (sli_name, metric_data) ∈ sli_metrics →
  match report_methods !! sli_name with
  | Some report_method => is_ok (report_method metric_data ceph_sli) = false
  | None => True
  end →
  is_ok (sections_from sli_metrics message) = false.
Proof.
  intros Hin Hfail. revert message. unfold email_sections.
  induction sli_metrics as [|[n m] l IH]; intros message.
  - by apply elem_of_nil in Hin.
  - simpl. apply elem_of_cons in Hin as [[= <- <-]|Hin].
    + unfold getitem. destruct (report_methods !! sli_name) as [f|].
      * simpl. destruct (f metric_data ceph_sli); [done|].
        simpl. by rewrite email_sections_raise.
      * simpl. by rewrite email_sections_raise.
    + destruct (getitem report_methods n) as [f|e]; simpl.
      * destruct (f m ceph_sli); simpl; [by apply IH|].
        by rewrite email_sections_raise.
      * by rewrite email_sections_raise.
Qed.

(** X21. When the report method of every collected indicator returns
    its section, the email is the start, the style and the intro, then
    the sections in the order of the collected mapping, each after a
    newline, then the references and the end; the same text is written
    to the HTML file, and it is returned bare in a dry run and as an
    "html" MIMEText otherwise. *)
Theorem generate_email_layout (sli_metrics : list (string * gmap string sample))
    (sections : list string) :
  Forall2 (λ item section,
             ∃ report_method,
               report_methods !! item.1 = Some report_method ∧
               report_method item.2 ceph_sli = Ok section)
          sli_metrics sections →
  let message :=
    report_start ++ report_style ++ report_intro
      ++ sections_text sections ++ report_references ++ report_end in
  generate_email _DRY_RUN report_start report_style report_intro
    report_references report_end CephStore ceph_sli report_methods sli_metrics
  = Ok {| html_file := message;
          returned := if _DRY_RUN then Text message
                      else MIMEText message "html" |}.
Proof.
  intros H message. unfold generate_email.
  rewrite (email_sections_all_ok sli_metrics sections _ H). simpl.
  assert ((report_start ++ report_style ++ report_intro)
            ++ sections_text sections ++ report_references ++ report_end
          = message) as Hmsg.
  { unfold message. by rewrite !string_append_assoc. }
  rewrite <- !string_append_assoc in Hmsg.
  rewrite <- !string_append_assoc. by rewrite Hmsg.
Qed.

(** X22. One indicator whose report method raises, or that has no
    report method, is enough for [generate_email] to raise: no email
    text is returned, whatever the other indicators report. *)
Theorem generate_email_needs_every_report
    (sli_metrics : list (string * gmap string sample))
    (sli_name : string) (metric_data : gmap string sample) :
  (sli_name, metric_data) ∈ sli_metrics →
  match report_methods !! sli_name with
  | Some report_method => is_ok (report_method metric_data ceph_sli) = false
  | None => True
  end →
  is_ok (generate_email _DRY_RUN report_start report_style report_intro
           report_references report_end CephStore ceph_sli report_methods
           sli_metrics) = false.
Proof.
  intros Hin Hfail. unfold generate_email.
  pose proof (email_sections_failure sli_metrics sli_name metric_data
                (report_start ++ report_style ++ report_intro) Hin Hfail) as H.
  by destruct (email_sections _ _ _ _ _).
Qed.

End EmailProperties.

Lemma generate_email_layout_witness :
  let message :=
    "<html>" ++ "<style>" ++ "<intro>"
      ++ sections_text ["<solved>"] ++ "<refs>" ++ "</html>" in
  generate_email true "<html>" "<style>" "<intro>" "<refs>" "</html>"
    blob_store ∅ demo_report_methods [("solved", ∅)]
  = Ok {| html_file := message; returned := Text message |}.
Proof.
  apply (generate_email_layout true "<html>" "<style>" "<intro>" "<refs>"
           "</html>" blob_store ∅ demo_report_methods
           [("solved", ∅)] ["<solved>"]).
  constructor; [|constructor].
  exists demo_solved_report. split; [vm_compute; reflexivity|reflexivity].
Defined.

Lemma generate_email_needs_every_report_witness :
  is_ok (generate_email false "<html>" "<style>" "<intro>" "<refs>" "</html>"
           blob_store ∅ demo_report_methods
           [("solved", ∅); ("user_api", week_sli)]) = false.
Proof.
  apply (generate_email_needs_every_report false "<html>" "<style>" "<intro>"
           "<refs>" "</html>" blob_store ∅ demo_report_methods
           [("solved", ∅); ("user_api", week_sli)] "user_api" week_sli).
  - apply list_elem_of_further, list_elem_of_here.
  - vm_compute. reflexivity.
Defined.

(** ** One run and the main loop *)

Section RunProperties.

Context (_DRY_RUN _ONLY_STORE_ON_CEPH : bool).
Context (Configuration SliValues Message : Type).
Context (new_configuration : Z → Z → Z → bool → outcome Configuration).
Context (email_day : Configuration → string).
Context (collect_metrics_of : Configuration → outcome SliValues).
Context (store_of : Configuration → SliValues → outcome unit).
Context (push_of : Configuration → SliValues → outcome unit).
Context (generate_email_of : Configuration → SliValues → outcome Message).
Context (open_in_browser : Message → outcome unit).
Context (send_sli_email_of : Configuration → Message → outcome unit).

Abbreviation run_with push :=
  (run_slo_reporter _DRY_RUN _ONLY_STORE_ON_CEPH Configuration SliValues
     Message new_configuration email_day collect_metrics_of store_of push
     generate_email_of open_in_browser send_sli_email_of).

Ltac event_cases :=
  rewrite ?elem_of_cons, ?elem_of_nil;
  intuition congruence.

(** X23. In a dry run nothing is stored, published or sent: the only
    calls a run makes are building the configuration, collecting,
    generating the email and opening it in the browser. *)
Theorem dry_run_has_no_outside_effect
    (start_time end_time number_days : Z) (dry_run : bool)
    (day_of_week : string) (ev : event) :
  _DRY_RUN = true →
  ev ∈ (run_slo_reporter _DRY_RUN _ONLY_STORE_ON_CEPH Configuration SliValues
          Message new_configuration email_day collect_metrics_of store_of
          push_of generate_email_of open_in_browser send_sli_email_of
          start_time end_time number_days dry_run day_of_week).1 →
  ev ≠ EvStore ∧ ev ≠ EvPush ∧ ev ≠ EvSendEmail.
Proof.
  intros -> Hev. revert Hev.
  unfold run_slo_reporter, ebind, ecall, etry, eret. simpl.
  destruct (new_configuration _ _ _ _) as [c|]; simpl; [|event_cases].
  destruct (collect_metrics_of c) as [v|]; simpl; [|event_cases].
  destruct (generate_email_of c v) as [m|]; simpl;
    [destruct (open_in_browser m); simpl|]; event_cases.
Qed.

(** X24. A run sends the email exactly when it is not a dry run, is
    not restricted to storing, the day of the week is the configured
    email day, and building the configuration, collecting, storing and
    generating the email all succeeded.  What publishing returned plays
    no part. *)
Theorem email_sent_exactly_when
    (start_time end_time number_days : Z) (dry_run : bool)
    (day_of_week : string) :
  EvSendEmail ∈
    (run_slo_reporter _DRY_RUN _ONLY_STORE_ON_CEPH Configuration SliValues
       Message new_configuration email_day collect_metrics_of store_of
       push_of generate_email_of open_in_browser send_sli_email_of
       start_time end_time number_days dry_run day_of_week).1
  ↔ _DRY_RUN = false ∧ _ONLY_STORE_ON_CEPH = false ∧
    ∃ configuration sli_values_map email_message,
      new_configuration start_time end_time number_days dry_run
        = Ok configuration ∧
      collect_metrics_of configuration = Ok sli_values_map ∧
      is_ok (store_of configuration sli_values_map) = true ∧
      day_of_week = email_day configuration ∧
      generate_email_of configuration sli_values_map = Ok email_message.
Proof.
  unfold run_slo_reporter, ebind, ecall, etry, eret. simpl.
  destruct (new_configuration _ _ _ _) as [c|e0] eqn:Hc; simpl.
  2: { split; [event_cases|]. by intros (_ & _ & c' & v' & m' & ? & _). }
  destruct (collect_metrics_of c) as [v|e0] eqn:Hv; simpl.
  2: { split; [event_cases|].
       intros (_ & _ & c' & v' & m' & [= <-] & Hv' & _). congruence. }
  destruct _DRY_RUN; simpl.
  { destruct (generate_email_of c v) as [m|]; simpl;
      [destruct (open_in_browser m); simpl|];
      (split; [event_cases|by intros [? _]]). }
  destruct (store_of c v) as [u|e0] eqn:Hs; simpl.
  2: { split; [event_cases|].
       intros (_ & _ & c' & v' & m' & [= <-] & Hv' & Hs' & _).
       rewrite Hv in Hv'. injection Hv' as <-. by rewrite Hs in Hs'. }
  destruct _ONLY_STORE_ON_CEPH; simpl.
  { split; [event_cases|by intros (_ & ? & _)]. }
  destruct (decide (day_of_week = email_day c)) as [Hday|Hday]; simpl.
  2: { split; [event_cases|].
       intros (_ & _ & c' & v' & m' & [= <-] & _ & _ & Hday' & _). done. }
  destruct (generate_email_of c v) as [m|e0] eqn:Hm; simpl.
  2: { split; [event_cases|].
       intros (_ & _ & c' & v' & m' & [= <-] & Hv' & _ & _ & Hm').
       rewrite Hv in Hv'. injection Hv' as <-. congruence. }
  split.
  - intros _. split; [done|]. split; [done|].
    exists c, v, m. by rewrite Hs.
  - intros _. rewrite !elem_of_cons. tauto.
Qed.

(** X25. What publishing returns or raises changes neither the calls a
    run makes nor its result: the exception of the publishing step is
    swallowed. *)
Theorem push_outcome_is_ignored
    (push_of' : Configuration → SliValues → outcome unit)
    (start_time end_time number_days : Z) (dry_run : bool)
    (day_of_week : string) :
  run_slo_reporter _DRY_RUN _ONLY_STORE_ON_CEPH Configuration SliValues
    Message new_configuration email_day collect_metrics_of store_of push_of
    generate_email_of open_in_browser send_sli_email_of
    start_time end_time number_days dry_run day_of_week
  = run_slo_reporter _DRY_RUN _ONLY_STORE_ON_CEPH Configuration SliValues
      Message new_configuration email_day collect_metrics_of store_of push_of'
      generate_email_of open_in_browser send_sli_email_of
      start_time end_time number_days dry_run day_of_week.
Proof.
  unfold run_slo_reporter, ebind, ecall, etry, eret. simpl.
  destruct (new_configuration _ _ _ _) as [c|]; [|done]. simpl.
  destruct (collect_metrics_of c) as [v|]; [|done]. simpl.
  destruct _DRY_RUN; simpl; [done|].
  by destruct (store_of c v).
Qed.

(** X26. A run that is not a dry run and whose persistence raises stops
    there with that exception: it has built the configuration, collected
    and called the persistence, and it neither publishes nor generates
    or sends an email. *)
Theorem store_failure_ends_run
    (start_time end_time number_days : Z) (dry_run : bool)
    (day_of_week : string) (configuration : Configuration)
    (sli_values_map : SliValues) (e : exn) :
  _DRY_RUN = false →
  new_configuration start_time end_time number_days dry_run
    = Ok configuration →
  collect_metrics_of configuration = Ok sli_values_map →
  store_of configuration sli_values_map = Raise e →
  run_slo_reporter _DRY_RUN _ONLY_STORE_ON_CEPH Configuration SliValues
    Message new_configuration email_day collect_metrics_of store_of push_of
    generate_email_of open_in_browser send_sli_email_of
    start_time end_time number_days dry_run day_of_week
  = ([EvConfiguration start_time end_time number_days dry_run;
      EvCollect; EvStore], Raise e).
Proof.
  intros -> Hc Hv Hs.
  unfold run_slo_reporter, ebind, ecall, etry, eret. simpl.
  rewrite Hc. simpl. rewrite Hv. simpl. by rewrite Hs.
Qed.

End RunProperties.

Lemma dry_run_has_no_outside_effect_witness :
  EvSendEmail ∉ (demo_run true false (Ok tt) 0 1591574400000000 7 "Monday").1.
Proof.
  intros Hin.
  destruct (dry_run_has_no_outside_effect true false Z unit string
              (λ _ end_time _ _, Ok end_time) (λ _, "Monday")
              (λ _, Ok tt) (λ _ _, Ok tt) (λ _ _, Ok tt)
              (λ _ _, Ok "<email>") (λ _, Ok tt) (λ _ _, Ok tt)
              0 1591574400000000 7 true "Monday" EvSendEmail eq_refl Hin)
    as (_ & _ & Hsend).
  by apply Hsend.
Defined.

Lemma email_sent_exactly_when_witness :
  EvSendEmail ∈
    (demo_run false false (Raise (SourceError "gateway")) 0 1591574400000000 7
       "Monday").1.
Proof.
  apply (email_sent_exactly_when false false Z unit string
           (λ _ end_time _ _, Ok end_time) (λ _, "Monday")
           (λ _, Ok tt) (λ _ _, Ok tt)
           (λ _ _, Raise (SourceError "gateway"))
           (λ _ _, Ok "<email>") (λ _, Ok tt) (λ _ _, Ok tt)
           0 1591574400000000 7 false "Monday").
  split; [reflexivity|]. split; [reflexivity|].
  exists 1591574400000000%Z, tt, "<email>". repeat split; reflexivity.
Defined.

Lemma store_failure_ends_run_witness :
  run_slo_reporter false false Z unit string
    (λ _ end_time _ _, Ok end_time) (λ _, "Monday")
    (λ _, Ok tt) (λ _ _, Raise (Exception "columns")) (λ _ _, Ok tt)
    (λ _ _, Ok "<email>") (λ _, Ok tt) (λ _ _, Ok tt)
    0 1591574400000000 7 false "Monday"
  = ([EvConfiguration 0 1591574400000000 7 false; EvCollect; EvStore],
     Raise (Exception "columns")).
Proof.
  apply (store_failure_ends_run false false Z unit string
           (λ _ end_time _ _, Ok end_time) (λ _, "Monday")
           (λ _, Ok tt) (λ _ _, Raise (Exception "columns")) (λ _ _, Ok tt)
           (λ _ _, Ok "<email>") (λ _, Ok tt) (λ _ _, Ok tt)
           0 1591574400000000 7 false "Monday" 1591574400000000%Z tt);
    reflexivity.
Defined.

(** ** The main loop *)

Lemma ebind_trace {A B} (m : eff A) (k : A → eff B) :
  (ebind m k).1 =
    (m.1 ++ match m.2 with
            | Ok a => (k a).1
            | Raise _ => []
            end)%list.
Proof. unfold ebind. destruct m.2; simpl; [done|]. by rewrite app_nil_r. Qed.

Lemma emails_sent_app (t1 t2 : list event) :
  emails_sent (t1 ++ t2) = (emails_sent t1 + emails_sent t2)%nat.
Proof. unfold emails_sent. by rewrite List.filter_app, length_app. Qed.

Section MainProperties.

Context (_DRY_RUN _ONLY_STORE_ON_CEPH : bool).
Context (Configuration SliValues Message : Type).
Context (new_configuration : Z → Z → Z → bool → outcome Configuration).
Context (email_day : Configuration → string).
Context (collect_metrics_of : Configuration → outcome SliValues).
Context (store_of : Configuration → SliValues → outcome unit).
Context (push_of : Configuration → SliValues → outcome unit).
Context (generate_email_of : Configuration → SliValues → outcome Message).
Context (open_in_browser : Message → outcome unit).
Context (send_sli_email_of : Configuration → Message → outcome unit).
Context (INTERVAL_REPORT_DAYS EVALUATION_METRICS_DAYS : Z).
Context (utcnow : nat → Z).

Abbreviation run_once :=
  (run_slo_reporter _DRY_RUN _ONLY_STORE_ON_CEPH Configuration SliValues
     Message new_configuration email_day collect_metrics_of store_of push_of
     generate_email_of open_in_browser send_sli_email_of).
Abbreviation iteration :=
  (main_iteration _DRY_RUN _ONLY_STORE_ON_CEPH Configuration SliValues
     Message new_configuration email_day collect_metrics_of store_of push_of
     generate_email_of open_in_browser send_sli_email_of
     INTERVAL_REPORT_DAYS utcnow).
Abbreviation loop :=
  (main_loop _DRY_RUN _ONLY_STORE_ON_CEPH Configuration SliValues
     Message new_configuration email_day collect_metrics_of store_of push_of
     generate_email_of open_in_browser send_sli_email_of
     INTERVAL_REPORT_DAYS utcnow).
Abbreviation main_run :=
  (main _DRY_RUN _ONLY_STORE_ON_CEPH Configuration SliValues
     Message new_configuration email_day collect_metrics_of store_of push_of
     generate_email_of open_in_browser send_sli_email_of
     INTERVAL_REPORT_DAYS EVALUATION_METRICS_DAYS utcnow).

Lemma run_sends_at_most_once (start_time end_time number_days : Z)
    (dry_run : bool) (day_of_week : string) :
  (emails_sent (run_once start_time end_time number_days dry_run
                  day_of_week).1 ≤ 1)%nat ∧
  (_ONLY_STORE_ON_CEPH = true →
   emails_sent (run_once start_time end_time number_days dry_run
                  day_of_week).1 = 0%nat).
Proof.
  unfold run_slo_reporter, ebind, ecall, etry, eret, emails_sent. simpl.
  destruct (new_configuration _ _ _ _) as [c|]; simpl; [|split; [lia|done]].
  destruct (collect_metrics_of c) as [v|]; simpl; [|split; [lia|done]].
  destruct _DRY_RUN; simpl.
  { destruct (generate_email_of c v) as [m|]; simpl;
      [destruct (open_in_browser m); simpl|]; (split; [lia|done]). }
  destruct (store_of c v); simpl; [|split; [lia|done]].
  destruct _ONLY_STORE_ON_CEPH; simpl; [split; [lia|done]|].
  destruct (decide _); simpl; [|split; [lia|done]].
  destruct (generate_email_of c v) as [m|]; simpl; (split; [lia|done]).
Qed.

Lemma run_configurations (start_time end_time number_days : Z)
    (dry_run : bool) (day_of_week : string) :
  List.filter is_configuration
    (run_once start_time end_time number_days dry_run day_of_week).1
  = [EvConfiguration start_time end_time number_days dry_run].
Proof.
  unfold run_slo_reporter, ebind, ecall, etry, eret. simpl.
  destruct (new_configuration _ _ _ _) as [c|]; simpl; [|done].
  destruct (collect_metrics_of c) as [v|]; simpl; [|done].
  destruct _DRY_RUN; simpl.
  { destruct (generate_email_of c v) as [m|]; simpl;
      [destruct (open_in_browser m); simpl|]; done. }
  destruct (store_of c v); simpl; [|done].
  destruct _ONLY_STORE_ON_CEPH; simpl; [done|].
  destruct (decide _); simpl; [|done].
  by destruct (generate_email_of c v) as [m|]; simpl.
Qed.

Lemma loop_emails (iterations : list nat) :
  (emails_sent (loop iterations).1 ≤ length iterations)%nat ∧
  (_ONLY_STORE_ON_CEPH = true → emails_sent (loop iterations).1 = 0%nat).
Proof.
  induction iterations as [|i rest [IH1 IH2]]; [done|].
  cbn [main_loop]. rewrite ebind_trace, emails_sent_app.
  unfold main_iteration.
  destruct (run_sends_at_most_once
              (utcnow i - timedelta_days (Z.of_nat i)
                 - timedelta_days INTERVAL_REPORT_DAYS)
              (utcnow i - timedelta_days (Z.of_nat i))
              INTERVAL_REPORT_DAYS _DRY_RUN
              (day_name (utcnow i - timedelta_days (Z.of_nat i))))
    as [H1 H2].
  destruct (run_slo_reporter _ _ _ _ _ _ _ _ _ _ _ _ _ _ _ _ _ _).2.
  - split; [simpl; lia|]. intros Ho. rewrite H2, IH2 by done. done.
  - split; [simpl; unfold emails_sent at 2; simpl; lia|].
    intros Ho. by rewrite H2.
Qed.

(** X27. Asking for more than one day of evaluation without restricting
    the run to storing makes [main] raise before anything is run: no
    configuration is built and no call is made. *)
Theorem main_refuses_several_days_with_email :
  (1 < EVALUATION_METRICS_DAYS)%Z →
  _ONLY_STORE_ON_CEPH = false →
  main _DRY_RUN _ONLY_STORE_ON_CEPH Configuration SliValues Message
    new_configuration email_day collect_metrics_of store_of push_of
    generate_email_of open_in_browser send_sli_email_of
    INTERVAL_REPORT_DAYS EVALUATION_METRICS_DAYS utcnow
  = ([], Raise (Exception (several_days_message EVALUATION_METRICS_DAYS))).
Proof.
  intros Hdays ->. unfold main.
  apply Z.ltb_lt in Hdays. by rewrite Hdays.
Qed.

(** X28. However many days are evaluated, [main] sends at most one
    email, and none when the run is restricted to storing. *)
Theorem main_sends_at_most_one_email :
  (emails_sent main_run.1 ≤ 1)%nat ∧
  (_ONLY_STORE_ON_CEPH = true → emails_sent main_run.1 = 0%nat).
Proof.
  unfold main.
  destruct ((1 <? EVALUATION_METRICS_DAYS)%Z && negb _ONLY_STORE_ON_CEPH)
    eqn:Hguard; [split; [unfold emails_sent; simpl; lia|done]|].
  destruct (loop_emails (seq 0 (Z.to_nat EVALUATION_METRICS_DAYS)))
    as [Hle Hnone].
  split; [|exact Hnone].
  apply andb_false_iff in Hguard as [Hdays|Honly].
  - apply Z.ltb_ge in Hdays. rewrite length_seq in Hle. lia.
  - apply negb_false_iff in Honly. rewrite Hnone by done. lia.
Qed.

Lemma loop_configurations (iterations : list nat) (ev : event) :
  ev ∈ List.filter is_configuration (loop iterations).1 →
  ∃ i, i ∈ iterations ∧
       ev = EvConfiguration
              (utcnow i - timedelta_days (Z.of_nat i)
                 - timedelta_days INTERVAL_REPORT_DAYS)
              (utcnow i - timedelta_days (Z.of_nat i))
              INTERVAL_REPORT_DAYS _DRY_RUN.
Proof.
  induction iterations as [|i rest IH]; [by intros ?%elem_of_nil|].
  cbn [main_loop]. rewrite ebind_trace, List.filter_app.
  unfold main_iteration at 1. rewrite run_configurations.
  intros Hin. apply elem_of_app in Hin as [Hin|Hin].
  - apply list_elem_of_singleton in Hin as ->.
    exists i. split; [apply list_elem_of_here|done].
  - destruct (main_iteration _ _ _ _ _ _ _ _ _ _ _ _ _ _ _ _).2.
    + destruct (IH Hin) as (j & Hj & ->).
      exists j. split; [by apply list_elem_of_further|done].
    + by apply elem_of_nil in Hin.
Qed.

Lemma loop_configurations_length (iterations : list nat) :
  (length (List.filter is_configuration (loop iterations).1)
   ≤ length iterations)%nat ∧
  (is_ok (loop iterations).2 = true →
   length (List.filter is_configuration (loop iterations).1)
   = length iterations).
Proof.
  induction iterations as [|i rest [IH1 IH2]]; [done|].
  cbn [main_loop]. rewrite ebind_trace, List.filter_app, length_app.
  assert (length (List.filter is_configuration (iteration i).1) = 1%nat)
    as Hone.
  { unfold main_iteration. by rewrite run_configurations. }
  rewrite Hone. unfold ebind.
  destruct (iteration i).2 eqn:Hres; simpl.
  - split; [lia|]. intros Hok. by rewrite IH2.
  - split; [lia|done].
Qed.

(** X29. Every run [main] starts covers a window of the configured
    number of days that ends a whole number of days before the clock
    reading of its iteration: run [i] ends [i] days before now and starts
    the interval before that.  At most as many runs are started as days
    are asked for, and exactly that many when [main] returns. *)
Theorem main_windows :
  (∀ start_time end_time number_days dry_run,
     EvConfiguration start_time end_time number_days dry_run ∈ main_run.1 →
     (end_time - start_time)%Z = timedelta_days INTERVAL_REPORT_DAYS ∧
     number_days = INTERVAL_REPORT_DAYS ∧
     dry_run = _DRY_RUN ∧
     ∃ i, (i < Z.to_nat EVALUATION_METRICS_DAYS)%nat ∧
          end_time = (utcnow i - timedelta_days (Z.of_nat i))%Z) ∧
  (length (List.filter is_configuration main_run.1)
   ≤ Z.to_nat EVALUATION_METRICS_DAYS)%nat ∧
  (is_ok main_run.2 = true →
   length (List.filter is_configuration main_run.1)
   = Z.to_nat EVALUATION_METRICS_DAYS).
Proof.
  unfold main.
  destruct ((1 <? EVALUATION_METRICS_DAYS)%Z && negb _ONLY_STORE_ON_CEPH).
  { split; [by intros ???? ?%elem_of_nil|]. simpl. split; [lia|done]. }
  destruct (loop_configurations_length
              (seq 0 (Z.to_nat EVALUATION_METRICS_DAYS))) as [Hle Heq].
  rewrite length_seq in Hle, Heq. split; [|by split].
  intros s e n d Hin.
  assert (EvConfiguration s e n d ∈
            List.filter is_configuration
              (loop (seq 0 (Z.to_nat EVALUATION_METRICS_DAYS))).1) as Hin'.
  { apply list_elem_of_In, filter_In. split; [by apply list_elem_of_In|done]. }
  apply loop_configurations in Hin' as (i & Hi & [= -> -> -> ->]).
  split; [lia|]. split; [done|]. split; [done|].
  exists i. split; [|done].
  apply list_elem_of_In, in_seq in Hi. lia.
Qed.

End MainProperties.

Lemma main_refuses_several_days_with_email_witness :
  demo_main false false 7 3
  = ([], Raise (Exception (several_days_message 3))).
Proof.
  apply (main_refuses_several_days_with_email false false Z unit string
           (λ _ end_time _ _, Ok end_time) (λ _, "Monday")
           (λ _, Ok tt) (λ _ _, Ok tt) (λ _ _, Ok tt)
           (λ _ _, Ok "<email>") (λ _, Ok tt) (λ _ _, Ok tt)
           7 3 (λ _, 1591574400000000%Z)).
  - reflexivity.
  - reflexivity.
Defined.

Lemma main_sends_at_most_one_email_witness :
  emails_sent (demo_main false true 7 3).1 = 0%nat.
Proof.
  destruct (main_sends_at_most_one_email false true Z unit string
              (λ _ end_time _ _, Ok end_time) (λ _, "Monday")
              (λ _, Ok tt) (λ _ _, Ok tt) (λ _ _, Ok tt)
              (λ _ _, Ok "<email>") (λ _, Ok tt) (λ _ _, Ok tt)
              7 3 (λ _, 1591574400000000%Z)) as [_ Hnone].
  apply Hnone. reflexivity.
Defined.

Lemma main_windows_witness :
  length (List.filter is_configuration (demo_main false true 7 3).1) = 3%nat.
Proof.
  destruct (main_windows false true Z unit string
              (λ _ end_time _ _, Ok end_time) (λ _, "Monday")
              (λ _, Ok tt) (λ _ _, Ok tt) (λ _ _, Ok tt)
              (λ _ _, Ok "<email>") (λ _, Ok tt) (λ _ _, Ok tt)
              7 3 (λ _, 1591574400000000%Z)) as (_ & _ & Hruns).
  apply Hruns. reflexivity.
Defined.

Example several_days_message_3 :
  several_days_message 3
  = "You need to set THOTH_ONLY_STORE_ON_CEPH to 1 if you want to evaluate metrics for more than one day. Otherwise 3 emails will be sent out.".
Proof. reflexivity. Qed.

Example demo_run_monday :
  (demo_run false false (Ok tt) 0 1591574400000000 7
     (day_name 1591574400000000)).1
  = [EvConfiguration 0 1591574400000000 7 false; EvCollect; EvStore; EvPush;
     EvGenerateEmail; EvSendEmail].
Proof. reflexivity. Qed.
